(** * The evaluation loop of the trainer

    A shallow embedding of [pytorch_lightning/trainer/evaluation_loop.py]
    ([TrainerEvaluationLoopMixin]): the batch loop of [_evaluate], the epoch
    reduction [__run_eval_epoch_end] with its two helpers, the two halves of
    the metric publication and the entry point [run_evaluation].

    The trainer object is an explicit state, threaded through a small
    state-and-exception monad.  Every hook or sink the loop calls is
    recorded, in call order, in the [calls] field of that state. *)

From Stdlib Require Import ZArith QArith Qcanon List String.
From stdpp Require Import base option list strings pretty gmap.

Set Warnings "-register-all".

Local Open Scope string_scope.
Local Open Scope list_scope.
Local Open Scope Z_scope.

(** ** Data model *)

(** Modelled from the spec: [torch.Tensor], which is not part of the file.
    A metric value is a scalar or a stack of tensors along a new leading
    (batch) dimension.  Entries are exact rationals: rounding of the machine
    floats is not modelled. *)
Inductive tensor : Type :=
| Scalar (x : Qc)
| Stack (ts : list tensor).

Fixpoint elements (t : tensor) : list Qc :=
  match t with
  | Scalar x => [x]
  | Stack ts => flat_map elements ts
  end.

Definition Qcsum (xs : list Qc) : Qc := fold_right Qcplus (Q2Qc 0) xs.

Definition average (xs : list Qc) : Qc :=
  (Qcsum xs / Q2Qc (inject_Z (Z.of_nat (length xs))))%Qc.

(** Modelled from the spec: [Tensor.mean()], the mean over all entries, a
    scalar tensor.  (On a tensor without entries torch yields nan; no theorem
    below evaluates the model there.) *)
Definition mean (t : tensor) : tensor := Scalar (average (elements t)).

Definition is_scalar (t : tensor) : bool :=
  match t with Scalar _ => true | Stack _ => false end.

(** The structured step output ([EvalResult]); the class lives in
    [pytorch_lightning.core.step_result].  The fields are the ones this file
    reads or writes. *)
Module EvalResult.
Record t : Type := mk {
  checkpoint_on : option tensor;
  early_stop_on : option tensor;
  epoch_pbar_metrics : gmap string tensor;
  epoch_log_metrics : gmap string tensor;
  callback_metrics : gmap string tensor
}.

Definition set_checkpoint_on (v : option tensor) (r : t) : t :=
  mk v (early_stop_on r) (epoch_pbar_metrics r) (epoch_log_metrics r)
     (callback_metrics r).

Definition set_early_stop_on (v : option tensor) (r : t) : t :=
  mk (checkpoint_on r) v (epoch_pbar_metrics r) (epoch_log_metrics r)
     (callback_metrics r).
End EvalResult.

(** Python values that flow through the loop as step outputs and epoch
    results: [None], a tensor, a legacy mapping, a structured result, a
    list. *)
Inductive value : Type :=
| VNone
| VTensor (t : tensor)
| VDict (d : list (string * value))
| VResult (r : EvalResult.t)
| VList (l : list value).

Definition is_none (v : value) : bool :=
  match v with VNone => true | _ => false end.

Definition is_result (v : value) : bool :=
  match v with VResult _ => true | _ => false end.

Inductive exn : Type := IndexError | AttributeError | TypeError.

(** A call returns a value or raises. *)
Inductive res (A : Type) : Type :=
| Ok (a : A)
| Raise (e : exn).
Arguments Ok {A} a.
Arguments Raise {A} e.

#[global] Instance res_ret : MRet res := fun A a => Ok a.

#[global] Instance res_bind : MBind res := fun A B f m =>
  match m with
  | Ok a => f a
  | Raise e => Raise e
  end.

#[global] Instance res_fmap : FMap res := fun A B f m =>
  match m with
  | Ok a => Ok (f a)
  | Raise e => Raise e
  end.

(** [max_batches] of [_evaluate]: one integer, or one integer per
    dataloader. *)
Inductive batch_limits : Type :=
| Int (n : Z)
| Ints (l : list Z).

Record warning : Type := Warning {
  message : string;
  category : string
}.

(** The three metric views of an epoch result: progress bar, log,
    callback. *)
Record views : Type := Views {
  prog_bar_view : gmap string tensor;
  log_view : gmap string tensor;
  callback_view : gmap string tensor
}.

(** The epoch-end hooks of the user's [LightningModule];
    [is_overridden name] holds when the hook is present. *)
Record LightningModule : Type := {
  test_end : option (value -> value);
  test_epoch_end : option (value -> value);
  validation_end : option (value -> value);
  validation_epoch_end : option (value -> value)
}.

(** A batch is opaque; a dataloader is a finite sequence of batches, and a
    batch may be [None]. *)
Definition dataloader (batch : Type) : Type := list (option batch).

(** Calls into collaborators, as they are recorded. *)
Inductive call (batch : Type) : Type :=
| on_pre_performance_check
| on_post_performance_check
| reset_test_dataloader_call
| reset_val_dataloader_call
| on_test_start
| on_validation_start
| on_test_end
| on_validation_end
| evaluation_loop_setup
| on_evaluation_epoch_start
| on_evaluation_batch_start (b : batch) (batch_idx dataloader_idx : nat)
| evaluation_step_call (test_mode : bool) (b : batch)
    (batch_idx dataloader_idx : nat)
| evaluation_step_end_call (output : value)
| on_evaluation_batch_end (b : batch) (batch_idx dataloader_idx : nat)
| evaluation_batch_end_cleanup (output : value)
    (batch_idx dataloader_idx : nat)
| evaluation_loop_log_metrics (output : value) (batch_idx : nat)
| user_hook (name : string) (arg : value)
| rank_zero_warn (w : warning)
| predictions_to_disk
| model_train
| set_grad_enabled (flag : bool)
| on_evaluation_epoch_end
| add_progress_bar_metrics (m : gmap string tensor)
| log_metrics (m : gmap string tensor)
| print (line : string)
| pprint (m : gmap string tensor).
Arguments on_pre_performance_check {batch}.
Arguments on_post_performance_check {batch}.
Arguments reset_test_dataloader_call {batch}.
Arguments reset_val_dataloader_call {batch}.
Arguments on_test_start {batch}.
Arguments on_validation_start {batch}.
Arguments on_test_end {batch}.
Arguments on_validation_end {batch}.
Arguments evaluation_loop_setup {batch}.
Arguments on_evaluation_epoch_start {batch}.
Arguments on_evaluation_batch_start {batch} b batch_idx dataloader_idx.
Arguments evaluation_step_call {batch} test_mode b batch_idx dataloader_idx.
Arguments evaluation_step_end_call {batch} output.
Arguments on_evaluation_batch_end {batch} b batch_idx dataloader_idx.
Arguments evaluation_batch_end_cleanup {batch} output batch_idx dataloader_idx.
Arguments evaluation_loop_log_metrics {batch} output batch_idx.
Arguments user_hook {batch} name arg.
Arguments rank_zero_warn {batch} w.
Arguments predictions_to_disk {batch}.
Arguments model_train {batch}.
Arguments set_grad_enabled {batch} flag.
Arguments on_evaluation_epoch_end {batch}.
Arguments add_progress_bar_metrics {batch} m.
Arguments log_metrics {batch} m.
Arguments print {batch} line.
Arguments pprint {batch} m.

(** The fields of the trainer (and of its [evaluation_loop]) the file
    touches. *)
Record Trainer (batch : Type) : Type := mkTrainer {
  callback_metrics : gmap string tensor;
  test_dataloaders : option (list (dataloader batch));
  val_dataloaders : option (list (dataloader batch));
  num_test_batches : list Z;
  num_val_batches : list Z;
  reload_dataloaders_every_epoch : bool;
  is_global_zero : bool;
  verbose_test : bool;
  testing : bool;
  max_batches : list Z;
  outputs : list (list value);
  calls : list (call batch)
}.
Arguments mkTrainer {batch}.
Arguments callback_metrics {batch} t.
Arguments test_dataloaders {batch} t.
Arguments val_dataloaders {batch} t.
Arguments num_test_batches {batch} t.
Arguments num_val_batches {batch} t.
Arguments reload_dataloaders_every_epoch {batch} t.
Arguments is_global_zero {batch} t.
Arguments verbose_test {batch} t.
Arguments testing {batch} t.
Arguments max_batches {batch} t.
Arguments outputs {batch} t.
Arguments calls {batch} t.

(** The collaborators the mixin leaves abstract or imports. *)
Record Collaborators (batch : Type) : Type := {
  (** [get_model()] *)
  get_model : LightningModule;
  (** [accelerator_backend.process_dataloader] *)
  process_dataloader : dataloader batch -> dataloader batch;
  (** [evaluation_loop.evaluation_step]: runs the model's step hook *)
  evaluation_step : bool -> batch -> nat -> nat -> value;
  (** [evaluation_loop.evaluation_step_end] *)
  evaluation_step_end : value -> value;
  (** [evaluation_loop.is_using_eval_results] *)
  is_using_eval_results : list (list value) -> bool;
  (** [utilities.flatten_dict] *)
  flatten_dict : value -> res (gmap string tensor);
  (** [process_output], reduced to the three views the loop keeps *)
  process_output : value -> res views;
  (** what [reset_test_dataloader] and [reset_val_dataloader] install:
      the dataloaders and their batch limits *)
  reset_test_dataloader :
    Trainer batch -> option (list (dataloader batch)) * list Z;
  reset_val_dataloader :
    Trainer batch -> option (list (dataloader batch)) * list Z;
  (** how [gather] and [reduce_on_epoch_end] combine one metric view of the
      step outputs of a dataloader *)
  gather_view : list (gmap string tensor) -> gmap string tensor;
  reduce_view : list (gmap string tensor) -> gmap string tensor
}.
Arguments get_model {batch} c.
Arguments process_dataloader {batch} c.
Arguments evaluation_step {batch} c.
Arguments evaluation_step_end {batch} c.
Arguments is_using_eval_results {batch} c.
Arguments flatten_dict {batch} c.
Arguments process_output {batch} c.
Arguments reset_test_dataloader {batch} c.
Arguments reset_val_dataloader {batch} c.
Arguments gather_view {batch} c.
Arguments reduce_view {batch} c.

(** ** The monad: trainer state, and a value or an exception *)

Definition M (batch : Type) (A : Type) : Type :=
  Trainer batch -> res A * Trainer batch.

#[global] Instance M_ret {batch} : MRet (M batch) := fun A a s => (Ok a, s).

#[global] Instance M_bind {batch} : MBind (M batch) := fun A B f m s =>
  match m s with
  | (Ok a, s') => f a s'
  | (Raise e, s') => (Raise e, s')
  end.

#[global] Instance M_fmap {batch} : FMap (M batch) := fun A B f m s =>
  match m s with
  | (Ok a, s') => (Ok (f a), s')
  | (Raise e, s') => (Raise e, s')
  end.

Definition lift {batch A} (r : res A) : M batch A := fun s => (r, s).

Definition gets {batch A} (f : Trainer batch -> A) : M batch A :=
  fun s => (Ok (f s), s).

Definition modify {batch} (f : Trainer batch -> Trainer batch)
    : M batch unit :=
  fun s => (Ok tt, f s).

(** [for x in l: body x] *)
Fixpoint for_each {batch A} (l : list A) (body : A -> M batch unit)
    : M batch unit :=
  match l with
  | [] => mret tt
  | x :: rest => body x;; for_each rest body
  end.

(** [l[i]], for an index that is not negative. *)
Definition index {A : Type} (l : list A) (i : nat) : res A :=
  match l !! i with
  | Some x => Ok x
  | None => Raise IndexError
  end.

(** [sum(max_batches)] *)
Definition sum (l : list Z) : Z := fold_right Z.add 0 l.

Section Program.
Context {batch : Type} (env : Collaborators batch).

Definition set_callback_metrics (m : gmap string tensor) (s : Trainer batch) :=
  mkTrainer m (test_dataloaders s) (val_dataloaders s) (num_test_batches s)
    (num_val_batches s) (reload_dataloaders_every_epoch s)
    (is_global_zero s) (verbose_test s) (testing s) (max_batches s)
    (outputs s) (calls s).

Definition set_test_dataloaders
    (d : option (list (dataloader batch)) * list Z) (s : Trainer batch) :=
  mkTrainer (callback_metrics s) (fst d) (val_dataloaders s) (snd d)
    (num_val_batches s) (reload_dataloaders_every_epoch s)
    (is_global_zero s) (verbose_test s) (testing s) (max_batches s)
    (outputs s) (calls s).

Definition set_val_dataloaders
    (d : option (list (dataloader batch)) * list Z) (s : Trainer batch) :=
  mkTrainer (callback_metrics s) (test_dataloaders s) (fst d)
    (num_test_batches s) (snd d) (reload_dataloaders_every_epoch s)
    (is_global_zero s) (verbose_test s) (testing s) (max_batches s)
    (outputs s) (calls s).

Definition set_testing (b : bool) (s : Trainer batch) :=
  mkTrainer (callback_metrics s) (test_dataloaders s) (val_dataloaders s)
    (num_test_batches s) (num_val_batches s)
    (reload_dataloaders_every_epoch s) (is_global_zero s) (verbose_test s)
    b (max_batches s) (outputs s) (calls s).

Definition set_loop (m : list Z) (o : list (list value)) (s : Trainer batch) :=
  mkTrainer (callback_metrics s) (test_dataloaders s) (val_dataloaders s)
    (num_test_batches s) (num_val_batches s)
    (reload_dataloaders_every_epoch s) (is_global_zero s) (verbose_test s)
    (testing s) m o (calls s).

Definition set_calls (c : list (call batch)) (s : Trainer batch) :=
  mkTrainer (callback_metrics s) (test_dataloaders s) (val_dataloaders s)
    (num_test_batches s) (num_val_batches s)
    (reload_dataloaders_every_epoch s) (is_global_zero s) (verbose_test s)
    (testing s) (max_batches s) (outputs s) c.

Definition record (c : call batch) : M batch unit :=
  modify (fun s => set_calls (calls s ++ [c]) s).

(** [self.callback_metrics.update(m)]: the entries of [m] win. *)
Definition callback_metrics_update (m : gmap string tensor) : M batch unit :=
  modify (fun s => set_callback_metrics (m ∪ callback_metrics s) s).

(** One limit per dataloader: a single integer is broadcast. *)
Definition per_loader (limits : batch_limits) (n : nat) : list Z :=
  match limits with
  | Int m => replicate n m
  | Ints l => l
  end.

(** Modelled from the spec: [EvaluationLoop.setup], which is not part of the
    file.  It starts a fresh epoch output and stores the limits, one integer
    being broadcast to all dataloaders. *)
Definition setup (limits : batch_limits)
    (dataloaders : list (dataloader batch)) : M batch unit :=
  record evaluation_loop_setup;;
  modify (set_loop (per_loader limits (length dataloaders)) []).

(** ** The batch loop of [_evaluate] *)

(** The inner [for batch_idx, batch in enumerate(dataloader)]; [batch_idx]
    is the index of the head of [batches]. *)
Fixpoint eval_batches (test_mode : bool) (dataloader_idx : nat)
    (dl_max_batches : Z) (batch_idx : nat) (batches : dataloader batch)
    (dl_outputs : list value) : M batch (list value) :=
  match batches with
  | [] => mret dl_outputs
  | None :: rest =>
      (* continue *)
      eval_batches test_mode dataloader_idx dl_max_batches (S batch_idx)
        rest dl_outputs
  | Some b :: rest =>
      if bool_decide (dl_max_batches <= Z.of_nat batch_idx) then
        (* break *)
        mret dl_outputs
      else
        record (on_evaluation_batch_start b batch_idx dataloader_idx);;
        record (evaluation_step_call test_mode b batch_idx dataloader_idx);;
        let output := evaluation_step env test_mode b batch_idx dataloader_idx in
        record (evaluation_step_end_call output);;
        let output := evaluation_step_end env output in
        record (on_evaluation_batch_end b batch_idx dataloader_idx);;
        record (evaluation_batch_end_cleanup output batch_idx dataloader_idx);;
        record (evaluation_loop_log_metrics output batch_idx);;
        eval_batches test_mode dataloader_idx dl_max_batches (S batch_idx)
          rest
          (if is_none output then dl_outputs else dl_outputs ++ [output])
  end.

(** The outer [for dataloader_idx, dataloader in enumerate(dataloaders)]. *)
Fixpoint eval_dataloaders (test_mode : bool) (dataloader_idx : nat)
    (dataloaders : list (dataloader batch)) : M batch unit :=
  match dataloaders with
  | [] => mret tt
  | dl :: rest =>
      let dl := process_dataloader env dl in
      limits ← gets max_batches;
      dl_max_batches ← lift (index limits dataloader_idx);
      dl_outputs ← eval_batches test_mode dataloader_idx dl_max_batches 0%nat
                     dl [];
      modify (fun s => set_loop (max_batches s) (outputs s ++ [dl_outputs]) s);;
      eval_dataloaders test_mode (S dataloader_idx) rest
  end.

(** The first part of [_evaluate]: set-up, the epoch-start hook and the two
    loops. *)
Definition evaluate_batches (dataloaders : list (dataloader batch))
    (limits : batch_limits) (test_mode : bool) : M batch unit :=
  modify (set_testing test_mode);;
  setup limits dataloaders;;
  record on_evaluation_epoch_start;;
  eval_dataloaders test_mode 0%nat dataloaders.

(** ** Epoch reduction *)

Definition as_result (v : value) : res EvalResult.t :=
  match v with
  | VResult r => Ok r
  | _ => Raise AttributeError
  end.

(** The per-batch values of a reserved slot, stacked along the batch
    dimension; the slot is absent when no step output has it. *)
Definition stack_slot (slot : EvalResult.t -> option tensor)
    (outs : list EvalResult.t) : option tensor :=
  match omap slot outs with
  | [] => None
  | ts => Some (Stack ts)
  end.

(** Modelled from the spec: the class-level [gather] of the structured
    result, which is not part of the file: the step outputs of one
    dataloader are concatenated into a single instance of the same shape. *)
Definition gather (outs : list EvalResult.t) : EvalResult.t :=
  EvalResult.mk
    (stack_slot EvalResult.checkpoint_on outs)
    (stack_slot EvalResult.early_stop_on outs)
    (gather_view env (EvalResult.epoch_pbar_metrics <$> outs))
    (gather_view env (EvalResult.epoch_log_metrics <$> outs))
    (gather_view env (EvalResult.callback_metrics <$> outs)).

(** Modelled from the spec: the class-level [reduce_on_epoch_end], which is
    not part of the file: a local reduction to a single instance of the same
    shape; the reserved slots are left to the caller, which averages them. *)
Definition reduce_on_epoch_end (outs : list EvalResult.t) : EvalResult.t :=
  EvalResult.mk
    (stack_slot EvalResult.checkpoint_on outs)
    (stack_slot EvalResult.early_stop_on outs)
    (reduce_view env (EvalResult.epoch_pbar_metrics <$> outs))
    (reduce_view env (EvalResult.epoch_log_metrics <$> outs))
    (reduce_view env (EvalResult.callback_metrics <$> outs)).

(** [if 'checkpoint_on' in result: result.checkpoint_on =
    result.checkpoint_on.mean()], and the same for [early_stop_on]. *)
Definition mean_reserved_slots (result : EvalResult.t) : EvalResult.t :=
  let result :=
    match EvalResult.checkpoint_on result with
    | Some t => EvalResult.set_checkpoint_on (Some (mean t)) result
    | None => result
    end in
  match EvalResult.early_stop_on result with
  | Some t => EvalResult.set_early_stop_on (Some (mean t)) result
  | None => result
  end.

(** [x[0].__class__.f(x)]: the first element selects the class, which must
    be a result class; the class method then reads every element. *)
Definition class_call (f : list EvalResult.t -> EvalResult.t)
    (x : list value) : res EvalResult.t :=
  first ← index x 0;
  _ ← as_result first;
  outs ← mapM as_result x;
  mret (f outs).

(** [__gather_epoch_end_eval_results] *)
Definition gather_epoch_end_eval_results (outputs : list (list value))
    : res value :=
  eval_results ← mapM (fun epoch_output =>
                     result ← class_call gather epoch_output;
                     mret (VResult (mean_reserved_slots result))) outputs;
  (* with 1 dataloader don't pass in a list *)
  match eval_results with
  | [eval_result] => mret eval_result
  | _ => mret (VList eval_results)
  end.

(** [__auto_reduce_result_objs] *)
Definition auto_reduce_result_objs (outputs : list (list value))
    : res (list value) :=
  mapM (fun dl_output =>
          result ← class_call reduce_on_epoch_end dl_output;
          mret (VResult (mean_reserved_slots result))) outputs.

Definition deprecation (old new : string) : warning :=
  Warning ("Method `" +:+ old +:+ "` was deprecated in v0.7 and will be removed in v1.0."
           +:+ " Use `" +:+ new +:+ "` instead.")
          "DeprecationWarning".

(** The value [eval_results] starts with: the outputs, or, with a single
    dataloader, its list of step outputs. *)
Definition raw_eval_results (outputs : list (list value))
    (dataloaders : list (dataloader batch)) : res value :=
  if bool_decide (length dataloaders = 1%nat) then
    VList <$> index outputs 0
  else
    mret (VList (VList <$> outputs)).

(** One [if self.is_overridden(name): ...] arm: the gather preprocessing
    when structured results are in use, then the user's hook. *)
Definition call_user_hook (name : string) (hook : value -> value)
    (outputs : list (list value)) (eval_results : value)
    (using_eval_result : bool) : M batch value :=
  eval_results ← (if using_eval_result
                   then lift (gather_epoch_end_eval_results outputs)
                   else mret eval_results);
  record (user_hook name eval_results);;
  mret (hook eval_results).

(** [if not isinstance(eval_results, list): eval_results = [eval_results]] *)
Definition as_list (eval_results : value) : list value :=
  match eval_results with
  | VList l => l
  | v => [v]
  end.

(** [__run_eval_epoch_end] *)
Definition run_eval_epoch_end (test_mode : bool)
    (outputs : list (list value)) (dataloaders : list (dataloader batch))
    (using_eval_result : bool) : M batch (list value) :=
  let model := get_model env in
  (* with a single dataloader don't pass an array *)
  eval_results ← lift (raw_eval_results outputs dataloaders);
  '(eval_results, user_reduced) ←
    (if test_mode then
       match test_end model, test_epoch_end model with
       | Some hook, _ =>
           eval_results ← call_user_hook "test_end" hook outputs eval_results
                            using_eval_result;
           record (rank_zero_warn (deprecation "test_end" "test_epoch_end"));;
           mret (eval_results, true)
       | None, Some hook =>
           eval_results ← call_user_hook "test_epoch_end" hook outputs
                            eval_results using_eval_result;
           mret (eval_results, true)
       | None, None => mret (eval_results, false)
       end
     else
       match validation_end model, validation_epoch_end model with
       | Some hook, _ =>
           eval_results ← call_user_hook "validation_end" hook outputs
                            eval_results using_eval_result;
           record (rank_zero_warn
                     (deprecation "validation_end" "validation_epoch_end"));;
           mret (eval_results, true)
       | None, Some hook =>
           eval_results ← call_user_hook "validation_epoch_end" hook outputs
                            eval_results using_eval_result;
           mret (eval_results, true)
       | None, None => mret (eval_results, false)
       end);
  eval_results ← (if using_eval_result && negb user_reduced
                   then VList <$> lift (auto_reduce_result_objs outputs)
                   else mret eval_results);
  mret (as_list eval_results).

(** ** Publication of the metrics *)

(** The structured branch of the sync binds the attribute anew:
    [self.callback_metrics = eval_result.callback_metrics].  The store is a
    value here; whether the mapping is afterwards shared with the result
    depends on the result class, which is not part of the file, and is not
    modelled. *)
Definition assign_callback_metrics (eval_result : value) : M batch unit :=
  r ← lift (as_result eval_result);
  modify (set_callback_metrics (EvalResult.callback_metrics r)).

(** The legacy branch of the sync: a scalar goes under ["val_loss"], a
    mapping is flattened; the store is updated in place. *)
Definition update_from_legacy (eval_result : value) : M batch unit :=
  flat ← match eval_result with
          | VTensor t => mret {[ "val_loss" := t ]}
          | v => lift (flatten_dict env v)
          end;
  callback_metrics_update flat.

(** [__update_callback_metrics] *)
Definition update_callback_metrics (eval_results : value)
    (using_eval_result : bool) : M batch unit :=
  if using_eval_result then
    match eval_results with
    | VList l => for_each l assign_callback_metrics
    | v => assign_callback_metrics v
    end
  else
    match eval_results with
    | VList l => for_each l update_from_legacy
    | v => update_from_legacy v
    end.

(** The views of one epoch result in [__log_evaluation_epoch_metrics]; in
    testing the callback view of a structured result is dropped. *)
Definition result_views (test_mode : bool) (result : value) : res views :=
  match result with
  | VResult r =>
      Ok (Views (EvalResult.epoch_pbar_metrics r)
                (EvalResult.epoch_log_metrics r)
                (if test_mode then ∅ else EvalResult.callback_metrics r))
  | v => process_output env v
  end.

(** [{**prog_bar_metrics, **log_metrics, **callback_metrics}]: a later
    mapping wins. *)
Definition dataloader_result_metrics (v : views) : gmap string tensor :=
  callback_view v ∪ (log_view v ∪ prog_bar_view v).

(** The body of the loop over the epoch results, with the list of reporting
    mappings as accumulator. *)
Fixpoint log_results (test_mode : bool) (results : list value)
    (eval_loop_results : list (gmap string tensor))
    : M batch (list (gmap string tensor)) :=
  match results with
  | [] => mret eval_loop_results
  | result :: rest =>
      v ← lift (result_views test_mode result);
      let metrics := dataloader_result_metrics v in
      record (add_progress_bar_metrics (prog_bar_view v));;
      record (log_metrics (log_view v));;
      callback_metrics_update (callback_view v);;
      log_results test_mode rest
        (if bool_decide (0 < size metrics)%nat
         then eval_loop_results ++ [metrics] else eval_loop_results)
  end.

(** [len(x)] where [x] is not [None].  A result is a mapping that always
    holds its bookkeeping entry. *)
Definition len (x : value) : res nat :=
  match x with
  | VList l => Ok (length l)
  | VDict d => Ok (length d)
  | VResult _ => Ok 1%nat
  | VTensor (Stack ts) => Ok (length ts)
  | VTensor (Scalar _) => Raise TypeError
  | VNone => Raise TypeError
  end.

Definition rule : string := String.concat "" (replicate 80 "-").

(** The report printed after a test. *)
Fixpoint print_results (result_idx : nat)
    (eval_loop_results : list (gmap string tensor)) : M batch unit :=
  match eval_loop_results with
  | [] => mret tt
  | results :: rest =>
      record (print ("DATALOADER:" +:+ pretty result_idx +:+ " TEST RESULTS"));;
      record (pprint results);;
      record (print rule);;
      print_results (S result_idx) rest
  end.

(** [__log_evaluation_epoch_metrics] *)
Definition log_evaluation_epoch_metrics (eval_results : value)
    (test_mode : bool) : M batch (list (gmap string tensor)) :=
  eval_loop_results ←
    match eval_results with
    | VNone => mret []
    | _ =>
        n ← lift (len eval_results);
        if bool_decide (0 < n)%nat
        then log_results test_mode (as_list eval_results) []
        else mret []
    end;
  global_zero ← gets is_global_zero;
  verbose ← gets verbose_test;
  (if test_mode && (global_zero : bool) && (verbose : bool)
   then record (print rule);; print_results 0 eval_loop_results
   else mret tt);;
  mret eval_loop_results.

(** ** [_evaluate] and [run_evaluation] *)

(** [_evaluate] *)
Definition evaluate (dataloaders : list (dataloader batch))
    (limits : batch_limits) (test_mode : bool) : M batch (list value) :=
  evaluate_batches dataloaders limits test_mode;;
  outs ← gets outputs;
  let using_eval_result := is_using_eval_results env outs in
  eval_results ← run_eval_epoch_end test_mode outs dataloaders
                   using_eval_result;
  (* log callback metrics *)
  update_callback_metrics (VList eval_results) using_eval_result;;
  record predictions_to_disk;;
  record model_train;;
  record (set_grad_enabled true);;
  record on_evaluation_epoch_end;;
  mret eval_results.

Definition do_reset_test_dataloader : M batch unit :=
  record reset_test_dataloader_call;;
  modify (fun s => set_test_dataloaders (reset_test_dataloader env s) s).

Definition do_reset_val_dataloader : M batch unit :=
  record reset_val_dataloader_call;;
  modify (fun s => set_val_dataloaders (reset_val_dataloader env s) s).

(** The head of [run_evaluation]: the pre-check hook and the choice of the
    dataloaders and batch limits. *)
Definition select_dataloaders (test_mode : bool)
    : M batch (option (list (dataloader batch)) * list Z) :=
  record on_pre_performance_check;;
  if test_mode then
    do_reset_test_dataloader;;
    dataloaders ← gets test_dataloaders;
    limits ← gets num_test_batches;
    mret (dataloaders, limits)
  else
    current ← gets val_dataloaders;
    (if current is None then do_reset_val_dataloader else mret tt);;
    dataloaders ← gets val_dataloaders;
    limits ← gets num_val_batches;
    mret (dataloaders, limits).

(** The tail of [run_evaluation], after the two skips. *)
Definition run_selected (dataloaders : list (dataloader batch))
    (limits : list Z) (test_mode : bool)
    : M batch (list (gmap string tensor) * list value) :=
  eval_results ← evaluate dataloaders (Ints limits) test_mode;
  eval_loop_results ← log_evaluation_epoch_metrics (VList eval_results)
                        test_mode;
  record on_post_performance_check;;
  reload ← gets reload_dataloaders_every_epoch;
  (if test_mode then
     if reload : bool then do_reset_test_dataloader else mret tt
   else
     if reload : bool then do_reset_val_dataloader else mret tt);;
  record (if test_mode then on_test_end else on_validation_end);;
  mret (eval_loop_results, eval_results).

(** [run_evaluation] *)
Definition run_evaluation (test_mode : bool)
    : M batch (list (gmap string tensor) * list value) :=
  '(dataloaders, limits) ← select_dataloaders test_mode;
  match dataloaders with
  | None => mret ([], [])
  | Some dataloaders =>
      record (if test_mode then on_test_start else on_validation_start);;
      (* enable disabling validation step with limit_val_batches = 0 *)
      let should_skip := bool_decide (sum limits = 0) in
      if should_skip then mret ([], [])
      else run_selected dataloaders limits test_mode
  end.

End Program.

(** ** What the batch loop does, as pure functions *)

Section Engine.
Context {batch : Type} (env : Collaborators batch).

(** The positions of a dataloader that are processed, with their batch:
    the batch is not [None] and the position is below the limit. *)
Fixpoint processed (dl_max_batches : Z) (batch_idx : nat)
    (batches : dataloader batch) : list (nat * batch) :=
  match batches with
  | [] => []
  | None :: rest => processed dl_max_batches (S batch_idx) rest
  | Some b :: rest =>
      if bool_decide (dl_max_batches <= Z.of_nat batch_idx) then []
      else (batch_idx, b) :: processed dl_max_batches (S batch_idx) rest
  end.

(** The six calls made for one processed position, in order. *)
Definition batch_calls (test_mode : bool) (dataloader_idx : nat)
    (p : nat * batch) : list (call batch) :=
  let output := evaluation_step env test_mode p.2 p.1 dataloader_idx in
  [ on_evaluation_batch_start p.2 p.1 dataloader_idx;
    evaluation_step_call test_mode p.2 p.1 dataloader_idx;
    evaluation_step_end_call output;
    on_evaluation_batch_end p.2 p.1 dataloader_idx;
    evaluation_batch_end_cleanup (evaluation_step_end env output) p.1
      dataloader_idx;
    evaluation_loop_log_metrics (evaluation_step_end env output) p.1 ].

(** The output kept for one processed position, if it is not [None]. *)
Definition kept_output (test_mode : bool) (dataloader_idx : nat)
    (p : nat * batch) : option value :=
  let output :=
    evaluation_step_end env
      (evaluation_step env test_mode p.2 p.1 dataloader_idx) in
  if is_none output then None else Some output.

(** The processed positions of dataloader [dataloader_idx]. *)
Definition loader_positions (limits : list Z) (dataloader_idx : nat)
    (dl : dataloader batch) : list (nat * batch) :=
  processed (default 0 (limits !! dataloader_idx)) 0
    (process_dataloader env dl).

(** The per-batch calls and the epoch output of a list of dataloaders. *)
Definition loop_calls (test_mode : bool) (limits : list Z)
    (dataloaders : list (dataloader batch)) : list (call batch) :=
  concat (imap (fun i dl => flat_map (batch_calls test_mode i)
                              (loader_positions limits i dl)) dataloaders).

Definition loop_outputs (test_mode : bool) (limits : list Z)
    (dataloaders : list (dataloader batch)) : list (list value) :=
  imap (fun i dl => omap (kept_output test_mode i)
                      (loader_positions limits i dl)) dataloaders.

(** The calls of [print_results]. *)
Fixpoint report_calls (result_idx : nat)
    (eval_loop_results : list (gmap string tensor)) : list (call batch) :=
  match eval_loop_results with
  | [] => []
  | results :: rest =>
      [print ("DATALOADER:" +:+ pretty result_idx +:+ " TEST RESULTS");
       pprint results; print rule] ++ report_calls (S result_idx) rest
  end.

(** The calls of the optional test report. *)
Definition test_report (test_mode : bool) (s : Trainer batch)
    (eval_loop_results : list (gmap string tensor)) : list (call batch) :=
  if test_mode && is_global_zero s && verbose_test s
  then print rule :: report_calls 0 eval_loop_results
  else [].

(** The calls with which [select_dataloaders] resets the dataloaders. *)
Definition selection_calls (test_mode : bool) (s : Trainer batch)
    : list (call batch) :=
  if test_mode then [reset_test_dataloader_call]
  else if val_dataloaders s is None then [reset_val_dataloader_call] else [].

End Engine.

(** ** The reduction, as the spec words it *)

(** The deprecated whole-epoch hook and the current epoch-end hook of a
    mode, with their names. *)
Definition legacy_hook (model : LightningModule) (test_mode : bool) :=
  if test_mode then test_end model else validation_end model.

Definition current_hook (model : LightningModule) (test_mode : bool) :=
  if test_mode then test_epoch_end model else validation_epoch_end model.

Definition legacy_name (test_mode : bool) : string :=
  if test_mode then "test_end" else "validation_end".

Definition current_name (test_mode : bool) : string :=
  if test_mode then "test_epoch_end" else "validation_epoch_end".

(** The mean over the batch dimension of a reserved slot: absent when no
    step output has the slot, else one scalar. *)
Definition slot_mean (slot : EvalResult.t -> option tensor)
    (outs : list EvalResult.t) : option tensor :=
  match omap slot outs with
  | [] => None
  | ts => Some (Scalar (average (flat_map elements ts)))
  end.

(** The reporting mappings of a list of views: the merged mappings that are
    not empty. *)
Definition reporting_mappings (vs : list views) : list (gmap string tensor) :=
  filter (fun m => 0 < size m)%nat (dataloader_result_metrics <$> vs).

(** The store after the callback views of a list of views are merged into
    it, one after the other. *)
Definition merge_callback_views (store : gmap string tensor)
    (vs : list views) : gmap string tensor :=
  foldl (fun m v => callback_view v ∪ m) store vs.

Definition sink_calls {batch} (vs : list views) : list (call batch) :=
  flat_map (fun v => [add_progress_bar_metrics (prog_bar_view v);
                      log_metrics (log_view v)]) vs.

(** Lists of structured step outputs, as the epoch output they are. *)
Definition as_outputs (outs : list (list EvalResult.t)) : list (list value) :=
  (fun o : list EvalResult.t => VResult <$> o) <$> outs.

(** [eval_results[0]] when the list has one element, else the list. *)
Definition unwrap_single (eval_results : list value) : value :=
  match eval_results with
  | [eval_result] => eval_result
  | _ => VList eval_results
  end.

(** ** Sample collaborators, for the concrete runs *)

Definition no_hooks : LightningModule :=
  {| test_end := None; test_epoch_end := None;
     validation_end := None; validation_epoch_end := None |}.

(** Whether the first step output of the first dataloader is structured. *)
Definition first_output_is_result (outs : list (list value)) : bool :=
  match outs with
  | (VResult _ :: _) :: _ => true
  | _ => false
  end.

(** The tensors at the top level of a legacy mapping. *)
Definition top_level_metrics (v : value) : res (gmap string tensor) :=
  match v with
  | VDict d =>
      Ok (list_to_map
            (omap (fun kv => match kv.2 with
                             | VTensor t => Some (kv.1, t)
                             | _ => None
                             end) d))
  | _ => Raise AttributeError
  end.

Definition sample_process_output (v : value) : res views :=
  match v with
  | VTensor _ => Ok (Views ∅ ∅ ∅)
  | _ => (fun m => Views ∅ ∅ m) <$> top_level_metrics v
  end.

(** A step that returns a structured result: the batch is the value of the
    monitored quantity, published under a name that depends on the mode. *)
Definition structured_step (test_mode : bool) (b : Qc) (batch_idx
    dataloader_idx : nat) : value :=
  VResult (EvalResult.mk (Some (Scalar b)) None ∅ ∅
             {[ (if test_mode then "test_acc" else "val_acc") := Scalar b ]}).

(** A step that returns a structured result without any metric. *)
Definition bare_step (test_mode : bool) (b : Qc) (batch_idx
    dataloader_idx : nat) : value :=
  VResult (EvalResult.mk None None ∅ ∅ ∅).

(** A step that returns the batch as a legacy scalar. *)
Definition scalar_step (test_mode : bool) (b : Qc) (batch_idx
    dataloader_idx : nat) : value :=
  VTensor (Scalar b).

(** A step that returns a legacy mapping with one entry. *)
Definition mapping_step (test_mode : bool) (b : Qc) (batch_idx
    dataloader_idx : nat) : value :=
  VDict [((if test_mode then "test_loss" else "val_loss"), VTensor (Scalar b))].

Definition sample_env (model : LightningModule)
    (step : bool -> Qc -> nat -> nat -> value) : Collaborators Qc :=
  {| get_model := model;
     process_dataloader := fun dl => dl;
     evaluation_step := step;
     evaluation_step_end := fun output => output;
     is_using_eval_results := first_output_is_result;
     flatten_dict := top_level_metrics;
     process_output := sample_process_output;
     reset_test_dataloader := fun s => (test_dataloaders s, num_test_batches s);
     reset_val_dataloader := fun s => (val_dataloaders s, num_val_batches s);
     gather_view := fun vs => default ∅ (last vs);
     reduce_view := fun vs => default ∅ (last vs) |}.

(** A trainer with the same dataloaders and limits for validation and
    test, and an empty store. *)
Definition sample_trainer (dataloaders : option (list (dataloader Qc)))
    (limits : list Z) : Trainer Qc :=
  {| callback_metrics := ∅;
     test_dataloaders := dataloaders; val_dataloaders := dataloaders;
     num_test_batches := limits; num_val_batches := limits;
     reload_dataloaders_every_epoch := false;
     is_global_zero := true; verbose_test := false;
     testing := false; max_batches := []; outputs := []; calls := [] |}.

Definition q (n d : Z) : Qc := Q2Qc (Qmake n (Z.to_pos d)).

(** A model that overrides the deprecated and the current hooks. *)
Definition both_hooks : LightningModule :=
  {| test_end := Some (fun _ => VTensor (Scalar (q 1 1)));
     test_epoch_end := Some (fun _ => VTensor (Scalar (q 2 1)));
     validation_end := Some (fun _ => VTensor (Scalar (q 3 1)));
     validation_epoch_end := Some (fun _ => VTensor (Scalar (q 4 1))) |}.

(** Three batches with the values 0.5, 0.3 and 0.7. *)
Definition three_batches : dataloader Qc :=
  [Some (q 1 2); Some (q 3 10); Some (q 7 10)].

(** Five batches numbered from 0, the second one missing. *)
Definition five_batches : dataloader Qc :=
  [Some (q 0 1); None; Some (q 2 1); Some (q 3 1); Some (q 4 1)].

(** A structured step output with a monitored value. *)
Definition monitored (x : Qc) : EvalResult.t :=
  EvalResult.mk (Some (Scalar x)) None ∅ ∅ ∅.

(** A step that returns a structured result whose callback metric is named
    after the batch. *)
Definition named_step (test_mode : bool) (b : Qc) (batch_idx
    dataloader_idx : nat) : value :=
  VResult (EvalResult.mk None None ∅ ∅
             {[ (if Qeq_bool b 0 then "acc_a" else "acc_b") := Scalar b ]}).

Definition named_env : Collaborators Qc := sample_env no_hooks named_step.

Definition structured_env : Collaborators Qc :=
  sample_env no_hooks structured_step.

Definition bare_env : Collaborators Qc := sample_env no_hooks bare_step.

Definition mapping_env : Collaborators Qc := sample_env no_hooks mapping_step.

(** One dataloader of three batches, all of them to be processed. *)
Definition one_loader : Trainer Qc := sample_trainer (Some [three_batches]) [3].

(** What a run returns, or empty lists when it raises. *)
Definition returned {A B} (r : res (list A * list B)) : list A * list B :=
  match r with
  | Ok x => x
  | Raise _ => ([], [])
  end.

(** ** Observations on the recorded calls *)




(** ** What a computation records, whether it returns or raises *)

(** The settings no part of the loop writes. *)
Definition config {batch} (s : Trainer batch) : bool * bool * bool :=
  (reload_dataloaders_every_epoch s, is_global_zero s, verbose_test s).

(** [m] only appends to the recorded calls, every call it appends is of
    kind [P], and it leaves the settings alone. *)
Definition appends {batch A} (P : call batch -> bool) (m : M batch A) : Prop :=
  ∀ s, ∃ new,
    calls (m s).2 = calls s ++ new ∧
    Forall (fun c => P c = true) new ∧
    config (m s).2 = config s.

(** The kinds of calls, by the part of the loop that makes them. *)
Definition is_selection_call {batch} (test_mode : bool) (c : call batch)
    : bool :=
  match c with
  | on_pre_performance_check => true
  | reset_test_dataloader_call => test_mode
  | reset_val_dataloader_call => negb test_mode
  | _ => false
  end.

Definition is_start_call {batch} (test_mode : bool) (c : call batch) : bool :=
  match c with
  | on_test_start => test_mode
  | on_validation_start => negb test_mode
  | _ => false
  end.

Definition is_loop_call {batch} (test_mode : bool) (c : call batch) : bool :=
  match c with
  | evaluation_loop_setup | on_evaluation_epoch_start
  | on_evaluation_batch_start _ _ _ | evaluation_step_end_call _
  | on_evaluation_batch_end _ _ _ | evaluation_batch_end_cleanup _ _ _
  | evaluation_loop_log_metrics _ _ => true
  | evaluation_step_call mode _ _ _ => eqb mode test_mode
  | _ => false
  end.

Definition is_reduction_call {batch} (c : call batch) : bool :=
  match c with
  | user_hook _ _ | rank_zero_warn _ => true
  | _ => false
  end.

Definition is_epilogue_call {batch} (c : call batch) : bool :=
  match c with
  | predictions_to_disk | model_train | set_grad_enabled _
  | on_evaluation_epoch_end => true
  | _ => false
  end.

Definition is_emission_call {batch} (test_mode : bool) (c : call batch)
    : bool :=
  match c with
  | add_progress_bar_metrics _ | log_metrics _ => true
  | print _ | pprint _ => test_mode
  | _ => false
  end.

Definition is_tail_call {batch} (test_mode : bool) (c : call batch) : bool :=
  match c with
  | on_post_performance_check => true
  | reset_test_dataloader_call | on_test_end => test_mode
  | reset_val_dataloader_call | on_validation_end => negb test_mode
  | _ => false
  end.

(** The calls a run in a given mode may make: none of the hooks of the
    other mode, no printing outside testing, and steps of its own mode. *)
Definition is_call_of_mode {batch} (test_mode : bool) (c : call batch)
    : bool :=
  match c with
  | on_test_start | on_test_end | reset_test_dataloader_call
  | print _ | pprint _ => test_mode
  | on_validation_start | on_validation_end
  | reset_val_dataloader_call => negb test_mode
  | evaluation_step_call mode _ _ _ => eqb mode test_mode
  | _ => true
  end.

Section Stages.
Context {batch : Type} (env : Collaborators batch).

(** [_evaluate] up to the last write to the store, and its last lines. *)
Definition evaluate_body (dataloaders : list (dataloader batch))
    (limits : batch_limits) (test_mode : bool) : M batch (list value) :=
  evaluate_batches env dataloaders limits test_mode;;
  outs ← gets outputs;
  eval_results ← run_eval_epoch_end env test_mode outs dataloaders
                   (is_using_eval_results env outs);
  update_callback_metrics env (VList eval_results)
    (is_using_eval_results env outs);;
  mret eval_results.

Definition evaluate_epilogue (eval_results : list value)
    : M batch (list value) :=
  record predictions_to_disk;;
  record model_train;;
  record (set_grad_enabled true);;
  record on_evaluation_epoch_end;;
  mret eval_results.

(** [run_evaluation] after the two skips, up to the emission, and its last
    lines. *)
Definition run_selected_body (dataloaders : list (dataloader batch))
    (limits : list Z) (test_mode : bool)
    : M batch (list (gmap string tensor) * list value) :=
  eval_results ← evaluate env dataloaders (Ints limits) test_mode;
  eval_loop_results ← log_evaluation_epoch_metrics env (VList eval_results)
                        test_mode;
  mret (eval_loop_results, eval_results).

Definition run_selected_tail (test_mode : bool)
    (result : list (gmap string tensor) * list value)
    : M batch (list (gmap string tensor) * list value) :=
  record on_post_performance_check;;
  reload ← gets reload_dataloaders_every_epoch;
  (if test_mode then
     if reload : bool then do_reset_test_dataloader env else mret tt
   else
     if reload : bool then do_reset_val_dataloader env else mret tt);;
  record (if test_mode then on_test_end else on_validation_end);;
  mret result.

(** The calls of the last lines of [run_evaluation]. *)
Definition tail_calls (test_mode : bool) (s : Trainer batch)
    : list (call batch) :=
  on_post_performance_check ::
  (if reload_dataloaders_every_epoch s
   then [if test_mode then reset_test_dataloader_call
         else reset_val_dataloader_call]
   else []) ++
  [if test_mode then on_test_end else on_validation_end].

End Stages.

(** What [m] returns or raises does not depend on the trainer it runs
    on. *)
Definition oblivious {batch A} (m : M batch A) : Prop :=
  ∀ s s', (m s).1 = (m s').1.

(** What a call returned, or [d] when it raised. *)
Definition ok_or {A} (d : A) (r : res A) : A :=
  match r with
  | Ok a => a
  | Raise _ => d
  end.


(** A store with one entry, and a structured result that publishes
    another. *)
Definition store_a : Trainer Qc :=
  set_callback_metrics {[ "a" := Scalar (q 1 1) ]} one_loader.

Definition publishes_b : EvalResult.t :=
  EvalResult.mk None None {[ "p" := Scalar (q 3 1) ]} ∅
    {[ "b" := Scalar (q 2 1) ]}.


(** * Properties *)

Section Properties.
Context {batch : Type} (env : Collaborators batch).
Implicit Types (s : Trainer batch) (dl : dataloader batch).

Lemma set_calls_id s : set_calls (calls s) s = s.
Proof. by destruct s. Qed.

Lemma set_calls_set_calls c c' s : set_calls c (set_calls c' s) = set_calls c s.
Proof. reflexivity. Qed.

Lemma calls_set_calls c s : calls (set_calls c s) = c.
Proof. reflexivity. Qed.

Lemma bind_run {A B} (m : M batch A) (f : A -> M batch B) s :
  (m ≫= f) s =
  match m s with
  | (Ok a, s') => f a s'
  | (Raise e, s') => (Raise e, s')
  end.
Proof. done. Qed.

Lemma record_run (c : call batch) s :
  record c s = (Ok tt, set_calls (calls s ++ [c]) s).
Proof. done. Qed.

Lemma record_set_calls (c : call batch) cs s :
  record c (set_calls cs s) = (Ok tt, set_calls (cs ++ [c]) s).
Proof. reflexivity. Qed.

(** Runs a sequence of recorded calls, keeping the state in the form
    [set_calls _ s]. *)
Ltac run_records :=
  rewrite ?bind_run, ?record_run;
  repeat (rewrite bind_run, record_set_calls).

(** Runs a computation on a state that has been destructed. *)
Ltac run_monad :=
  unfold mbind, M_bind, lift, record, callback_metrics_update, modify, gets,
    mret, M_ret, fmap, M_fmap;
  simpl; rewrite <- ?app_assoc.

(** *** The inner loop *)

Lemma eval_batches_run test_mode i dl_max batch_idx dl dl_outputs s :
  eval_batches env test_mode i dl_max batch_idx dl dl_outputs s =
  (Ok (dl_outputs ++
         omap (kept_output env test_mode i) (processed dl_max batch_idx dl)),
   set_calls
     (calls s ++
        flat_map (batch_calls env test_mode i) (processed dl_max batch_idx dl))
     s).
Proof.
  revert batch_idx dl_outputs s.
  induction dl as [|[b|] rest IH]; intros batch_idx dl_outputs s; simpl.
  - by rewrite !app_nil_r, set_calls_id.
  - case_bool_decide as Hmax; simpl.
    + by rewrite !app_nil_r, set_calls_id.
    + run_records.
      rewrite IH, set_calls_set_calls, calls_set_calls.
      unfold kept_output at 2. simpl.
      f_equal.
      * f_equal. destruct (is_none _); simpl; [reflexivity|].
        rewrite <- app_assoc. reflexivity.
      * f_equal. rewrite <- !app_assoc. reflexivity.
  - apply IH.
Qed.

Lemma elem_of_processed dl_max batch_idx dl j b :
  (j, b) ∈ processed dl_max batch_idx dl ↔
  (batch_idx ≤ j)%nat ∧ dl !! (j - batch_idx)%nat = Some (Some b) ∧
  Z.of_nat j < dl_max.
Proof.
  revert batch_idx.
  induction dl as [|[b'|] rest IH]; intros batch_idx; simpl.
  - rewrite elem_of_nil. split; [done|]. by intros (_ & ? & _).
  - case_bool_decide as Hmax.
    + rewrite elem_of_nil. split; [done|]. intros (? & ? & ?). lia.
    + rewrite elem_of_cons, IH. split.
      * intros [[= -> ->]|(? & Hl & ?)].
        -- split; [lia|]. split; [|lia]. by rewrite Nat.sub_diag.
        -- split; [lia|]. split; [|done].
           by replace (j - batch_idx)%nat with (S (j - S batch_idx)) by lia.
      * intros (Hle & Hl & Hlt).
        destruct (decide (j = batch_idx)) as [->|Hne].
        -- left. rewrite Nat.sub_diag in Hl. simpl in Hl. by simplify_eq.
        -- right. split; [lia|]. split; [|done].
           by replace (j - batch_idx)%nat with (S (j - S batch_idx)) in Hl by lia.
  - rewrite IH. split.
    + intros (? & Hl & ?). split; [lia|]. split; [|done].
      by replace (j - batch_idx)%nat with (S (j - S batch_idx)) by lia.
    + intros (Hle & Hl & Hlt).
      destruct (decide (j = batch_idx)) as [->|Hne].
      * by rewrite Nat.sub_diag in Hl.
      * split; [lia|]. split; [|done].
        by replace (j - batch_idx)%nat with (S (j - S batch_idx)) in Hl by lia.
Qed.

Lemma length_processed dl_max batch_idx dl :
  Z.of_nat (length (processed dl_max batch_idx dl)) ≤
  Z.max 0 (dl_max - Z.of_nat batch_idx).
Proof.
  revert batch_idx.
  induction dl as [|[b|] rest IH]; intros batch_idx; simpl; [lia| |].
  - case_bool_decide; simpl; [lia|]. specialize (IH (S batch_idx)). lia.
  - specialize (IH (S batch_idx)). lia.
Qed.

Lemma length_omap_le {A B} (f : A -> option B) (l : list A) :
  (length (omap f l) ≤ length l)%nat.
Proof.
  induction l as [|x l IH]; cbn; [lia|].
  destruct (f x); cbn; lia.
Qed.

(** *** The outer loop *)

Lemma eval_dataloaders_run test_mode i dataloaders s :
  (i + length dataloaders ≤ length (max_batches s))%nat →
  eval_dataloaders env test_mode i dataloaders s =
  (Ok tt,
   set_loop (max_batches s)
     (outputs s ++
        imap (fun k dl => omap (kept_output env test_mode (i + k))
                            (loader_positions env (max_batches s) (i + k) dl))
          dataloaders)
     (set_calls
        (calls s ++
           concat (imap (fun k dl =>
                           flat_map (batch_calls env test_mode (i + k))
                             (loader_positions env (max_batches s) (i + k) dl))
                     dataloaders))
        s)).
Proof.
  revert i s.
  induction dataloaders as [|dl rest IH]; intros i s Hlen.
  - destruct s; simpl. by rewrite !app_nil_r.
  - destruct (lookup_lt_is_Some_2 (max_batches s) i) as [m Hm];
      [simpl in Hlen; lia|].
    cbn [eval_dataloaders].
    rewrite bind_run. unfold gets at 1. rewrite bind_run.
    unfold lift, index. rewrite Hm. rewrite bind_run, eval_batches_run.
    rewrite bind_run. unfold modify at 1.
    destruct s as [cm td vd nt nv rl gz vt tg mb os cs]; simpl in *.
    rewrite IH by (simpl; lia). simpl.
    unfold loader_positions at 3 5. rewrite !Nat.add_0_r, Hm. simpl.
    unfold set_loop, set_calls; simpl. do 2 f_equal.
    + rewrite <- app_assoc. simpl. do 2 f_equal.
      apply imap_ext. intros k x _. simpl. by rewrite Nat.add_succ_r.
    + rewrite <- app_assoc. do 3 f_equal.
      apply imap_ext. intros k x _. simpl. by rewrite Nat.add_succ_r.
Qed.

Lemma evaluate_batches_run dataloaders limits test_mode s :
  (length dataloaders ≤ length (per_loader limits (length dataloaders)))%nat →
  evaluate_batches env dataloaders limits test_mode s =
  (Ok tt,
   set_loop (per_loader limits (length dataloaders))
     (loop_outputs env test_mode (per_loader limits (length dataloaders))
        dataloaders)
     (set_calls
        (calls s ++ [evaluation_loop_setup; on_evaluation_epoch_start] ++
           loop_calls env test_mode (per_loader limits (length dataloaders))
             dataloaders)
        (set_testing test_mode s))).
Proof.
  intros Hlen. unfold evaluate_batches, setup.
  destruct s as [cm td vd nt nv rl gz vt tg mb os cs].
  rewrite bind_run. unfold modify at 1.
  rewrite !bind_run, record_run. unfold modify at 1.
  rewrite bind_run, record_run. simpl.
  rewrite eval_dataloaders_run by (simpl; lia). simpl.
  unfold loop_outputs, loop_calls, set_loop, set_calls; simpl.
  by rewrite <- !app_assoc.
Qed.

Lemma imap_imap {A B C} (f : nat -> B -> C) (g : nat -> A -> B) (l : list A) :
  imap f (imap g l) = imap (fun i x => f i (g i x)) l.
Proof.
  revert f g. induction l as [|x l IH]; intros f g; simpl; [done|].
  f_equal. apply IH.
Qed.

(** C5. For dataloaders with one limit each, no limit negative, the batch
    loop returns and has recorded, for every dataloader [i], at most
    [limits[i]] step outputs, and none when [limits[i]] is 0. *)
Theorem batch_limits_respected dataloaders (limits : list Z) test_mode s :
  length limits = length dataloaders →
  Forall (fun m => 0 ≤ m) limits →
  ∃ s',
    evaluate_batches env dataloaders (Ints limits) test_mode s = (Ok tt, s') ∧
    length (outputs s') = length dataloaders ∧
    ∀ i m dl_outputs,
      limits !! i = Some m →
      outputs s' !! i = Some dl_outputs →
      Z.of_nat (length dl_outputs) ≤ m ∧ (m = 0 → dl_outputs = []).
Proof.
  intros Hlen Hpos. eexists. split.
  { apply evaluate_batches_run. simpl. lia. }
  simpl. unfold loop_outputs. split; [apply length_imap|].
  intros i m dl_outputs Hm Hout.
  rewrite list_lookup_imap in Hout.
  destruct (dataloaders !! i) as [dl|]; [|done].
  injection Hout as <-.
  unfold loader_positions. rewrite Hm. simpl.
  pose proof (length_omap_le (kept_output env test_mode i)
                (processed m 0 (process_dataloader env dl))) as Hle.
  pose proof (length_processed m 0 (process_dataloader env dl)) as Hle'.
  assert (0 ≤ m) as Hm0.
  { rewrite Forall_lookup in Hpos. by apply (Hpos i). }
  split; [lia|].
  intros ->. apply length_zero_iff_nil. lia.
Qed.

(** C8. The per-batch hooks are called exactly for the positions that hold
    a batch other than [None] and lie below the limit, and the outputs kept
    come from those positions only: a [None] batch gets no hook call and no
    output, and a later batch below the limit is still processed. *)
Theorem null_batches_are_skipped dataloaders (limits : list Z) test_mode s :
  length limits = length dataloaders →
  ∃ s' (positions : list (list (nat * batch))),
    evaluate_batches env dataloaders (Ints limits) test_mode s = (Ok tt, s') ∧
    calls s' =
      calls s ++ [evaluation_loop_setup; on_evaluation_epoch_start] ++
      concat (imap (fun i ps => flat_map (batch_calls env test_mode i) ps)
                positions) ∧
    outputs s' =
      imap (fun i ps => omap (kept_output env test_mode i) ps) positions ∧
    length positions = length dataloaders ∧
    ∀ i dl m ps,
      dataloaders !! i = Some dl →
      limits !! i = Some m →
      positions !! i = Some ps →
      ∀ j b, (j, b) ∈ ps ↔
             process_dataloader env dl !! j = Some (Some b) ∧ Z.of_nat j < m.
Proof.
  intros Hlen.
  exists
    (set_loop limits (loop_outputs env test_mode limits dataloaders)
       (set_calls
          (calls s ++ [evaluation_loop_setup; on_evaluation_epoch_start] ++
             loop_calls env test_mode limits dataloaders)
          (set_testing test_mode s))),
    (imap (fun i dl => loader_positions env limits i dl) dataloaders).
  split.
  { rewrite evaluate_batches_run by (simpl; lia). done. }
  simpl. unfold loop_calls, loop_outputs. rewrite !imap_imap.
  split; [done|]. split; [done|]. split; [apply length_imap|].
  intros i dl m ps Hdl Hm Hps j b.
  rewrite list_lookup_imap, Hdl in Hps. injection Hps as <-.
  unfold loader_positions. rewrite Hm. simpl.
  rewrite elem_of_processed, Nat.sub_0_r. split.
  - by intros (_ & ? & ?).
  - intros [? ?]. split; [lia|done].
Qed.

(** *** The reduction *)

Lemma mapM_res_cons {A B} (f : A -> res B) x l :
  mapM f (x :: l) = y ← f x; k ← mapM f l; mret (y :: k).
Proof. done. Qed.

Lemma mapM_as_result (rs : list EvalResult.t) :
  mapM as_result (VResult <$> rs) = Ok rs.
Proof.
  induction rs as [|r rs IH]; [done|].
  rewrite fmap_cons, mapM_res_cons, IH. done.
Qed.

Lemma class_call_results f (rs : list EvalResult.t) :
  rs ≠ [] → class_call f (VResult <$> rs) = Ok (f rs).
Proof.
  intros Hne. unfold class_call.
  destruct rs as [|r rs]; [done|].
  rewrite mapM_as_result. done.
Qed.

Lemma class_call_nil f : class_call f [] = Raise IndexError.
Proof. done. Qed.

Lemma class_call_all_results f (x : list value) :
  Forall (fun v => is_result v = true) x → x ≠ [] →
  ∃ r, class_call f x = Ok r.
Proof.
  intros Hall Hne.
  assert (∃ rs, x = VResult <$> rs) as [rs ->].
  { clear Hne. induction Hall as [|v x Hv _ [rs ->]]; [by exists []|].
    destruct v; try done. by exists (r :: rs). }
  exists (f rs). apply class_call_results. by destruct rs.
Qed.

Lemma mapM_raises_on_empty {B} (g : list value -> res B) outputs :
  g [] = Raise IndexError →
  (∀ x, Forall (fun v => is_result v = true) x → x ≠ [] → ∃ r, g x = Ok r) →
  Forall (Forall (fun v => is_result v = true)) outputs →
  [] ∈ outputs →
  mapM g outputs = Raise IndexError.
Proof.
  intros Hnil Hok Hall Hin.
  induction outputs as [|x outputs IH]; [by apply elem_of_nil in Hin|].
  apply Forall_cons in Hall as [Hx Hall].
  rewrite mapM_res_cons.
  destruct x as [|v x].
  - by rewrite Hnil.
  - destruct (Hok (v :: x) Hx) as [r ->]; [done|].
    apply elem_of_cons in Hin as [|Hin]; [done|].
    rewrite IH by done. done.
Qed.

Lemma mean_reserved_slots_checkpoint_on r :
  EvalResult.checkpoint_on (mean_reserved_slots r) =
  mean <$> EvalResult.checkpoint_on r.
Proof.
  unfold mean_reserved_slots.
  destruct (EvalResult.checkpoint_on r) eqn:Hc;
    destruct (EvalResult.early_stop_on _) eqn:He; simpl; by rewrite ?Hc.
Qed.

Lemma mean_reserved_slots_early_stop_on r :
  EvalResult.early_stop_on (mean_reserved_slots r) =
  mean <$> EvalResult.early_stop_on r.
Proof.
  unfold mean_reserved_slots.
  destruct (EvalResult.checkpoint_on r) eqn:Hc; simpl;
    destruct (EvalResult.early_stop_on r) eqn:He; simpl; by rewrite ?He.
Qed.

Lemma mean_stack_slot slot outs :
  mean <$> stack_slot slot outs = slot_mean slot outs.
Proof. unfold stack_slot, slot_mean. by destruct (omap slot outs). Qed.

Lemma mapM_reduce_results (f : list EvalResult.t -> EvalResult.t)
    (outs : list (list EvalResult.t)) :
  Forall (fun o => o ≠ []) outs →
  mapM (M:=res) (fun x : list value =>
                   result ← class_call f x;
                   mret (VResult (mean_reserved_slots result)))
       (as_outputs outs) =
  Ok (VResult <$> ((fun o => mean_reserved_slots (f o)) <$> outs)).
Proof.
  unfold as_outputs.
  induction 1 as [|o outs Ho _ IH]; [done|].
  rewrite !fmap_cons, mapM_res_cons, class_call_results by done.
  simpl. rewrite IH. done.
Qed.

(** C6. When every dataloader has at least one structured step output, the
    auto-reduce and the gather preprocessing both return, with one result
    per dataloader, and in each result [checkpoint_on] and [early_stop_on]
    are absent or a single scalar, the mean over the batch dimension of the
    per-batch values. *)
Theorem reserved_slots_are_means (outs : list (list EvalResult.t)) :
  Forall (fun o => o ≠ []) outs →
  let outputs := as_outputs outs in
  let reduced (results : list EvalResult.t) :=
    Forall2 (fun o r =>
               EvalResult.checkpoint_on r =
                 slot_mean EvalResult.checkpoint_on o ∧
               EvalResult.early_stop_on r =
                 slot_mean EvalResult.early_stop_on o ∧
               (∀ t, EvalResult.checkpoint_on r = Some t ∨
                     EvalResult.early_stop_on r = Some t →
                     is_scalar t = true))
            outs results in
  (∃ results,
     auto_reduce_result_objs env outputs = Ok (VResult <$> results) ∧
     reduced results) ∧
  (∃ results,
     gather_epoch_end_eval_results env outputs =
       Ok (unwrap_single (VResult <$> results)) ∧
     reduced results).
Proof.
  intros Hne outputs reduced.
  assert (∀ f : list EvalResult.t -> EvalResult.t,
            (∀ o, EvalResult.checkpoint_on (f o) =
                  stack_slot EvalResult.checkpoint_on o) →
            (∀ o, EvalResult.early_stop_on (f o) =
                  stack_slot EvalResult.early_stop_on o) →
            reduced ((fun o => mean_reserved_slots (f o)) <$> outs)) as Hred.
  { intros f Hc He. unfold reduced. apply Forall2_fmap_r, Forall_Forall2_diag.
    apply Forall_forall. intros o _. unfold compose.
    rewrite mean_reserved_slots_checkpoint_on, Hc, mean_stack_slot.
    rewrite mean_reserved_slots_early_stop_on, He, mean_stack_slot.
    split; [done|]. split; [done|].
    unfold slot_mean. intros t [Ht|Ht].
    - destruct (omap EvalResult.checkpoint_on o); by simplify_eq.
    - destruct (omap EvalResult.early_stop_on o); by simplify_eq. }
  split.
  - eexists. split; [|by apply (Hred (reduce_on_epoch_end env))].
    unfold auto_reduce_result_objs. by apply mapM_reduce_results.
  - eexists. split; [|by apply (Hred (gather env))].
    unfold gather_epoch_end_eval_results, outputs.
    rewrite (mapM_reduce_results (gather env)) by done. simpl.
    unfold unwrap_single. by destruct (VResult <$> _) as [|? [|? ?]].
Qed.

(** C10. With structured step outputs, a dataloader whose output list is
    empty makes the gather preprocessing, the auto-reduce and therefore the
    whole epoch reduction raise [IndexError]. *)
Theorem empty_output_list_raises (outputs : list (list value)) :
  Forall (Forall (fun v => is_result v = true)) outputs →
  [] ∈ outputs →
  gather_epoch_end_eval_results env outputs = Raise IndexError ∧
  auto_reduce_result_objs env outputs = Raise IndexError ∧
  ∀ test_mode dataloaders s,
    (run_eval_epoch_end env test_mode outputs dataloaders true s).1 =
    Raise IndexError.
Proof.
  intros Hall Hin.
  assert (gather_epoch_end_eval_results env outputs = Raise IndexError) as Hg.
  { unfold gather_epoch_end_eval_results.
    rewrite mapM_raises_on_empty; try done.
    intros x Hx Hne.
    destruct (class_call_all_results (gather env) x Hx Hne) as [r ->].
    by eexists. }
  assert (auto_reduce_result_objs env outputs = Raise IndexError) as Ha.
  { unfold auto_reduce_result_objs.
    rewrite mapM_raises_on_empty; try done.
    intros x Hx Hne.
    destruct (class_call_all_results (reduce_on_epoch_end env) x Hx Hne)
      as [r ->].
    by eexists. }
  split; [done|]. split; [done|].
  intros test_mode dataloaders s.
  unfold run_eval_epoch_end, raw_eval_results, call_user_hook.
  rewrite bind_run. unfold lift at 1.
  destruct outputs as [|o outputs]; [by apply elem_of_nil in Hin|].
  rewrite Hg, Ha.
  case_bool_decide; simpl;
    destruct test_mode; simpl;
    repeat match goal with
           | |- context [match ?h with Some _ => _ | None => _ end] =>
               destruct h; simpl
           end; done.
Qed.

(** C3. The epoch reduction takes the first rule that applies: the
    deprecated whole-epoch hook when it is overridden (whatever the current
    hook is), with a deprecation warning that names the replacement; else
    the current epoch-end hook; else, with structured outputs, the
    auto-reduce; else the raw outputs, as they are (the list of the only
    dataloader, or the list of the lists).  A hook receives the gathered
    results when structured outputs are in use, the raw ones otherwise. *)
Theorem reduction_priority test_mode (outputs : list (list value))
    (dataloaders : list (dataloader batch)) (using_eval_result : bool) s :
  length outputs = length dataloaders →
  let raw :=
    if bool_decide (length dataloaders = 1%nat)
    then default [] (outputs !! 0%nat)
    else VList <$> outputs in
  let hook_input :=
    if using_eval_result then gather_epoch_end_eval_results env outputs
    else Ok (VList raw) in
  let run :=
    run_eval_epoch_end env test_mode outputs dataloaders using_eval_result s in
  match legacy_hook (get_model env) test_mode,
        current_hook (get_model env) test_mode with
  | Some hook, _ =>
      ∀ arg, hook_input = Ok arg →
        run =
        (Ok (as_list (hook arg)),
         set_calls
           (calls s ++
              [user_hook (legacy_name test_mode) arg;
               rank_zero_warn
                 (deprecation (legacy_name test_mode)
                    (current_name test_mode))])
           s)
  | None, Some hook =>
      ∀ arg, hook_input = Ok arg →
        run =
        (Ok (as_list (hook arg)),
         set_calls (calls s ++ [user_hook (current_name test_mode) arg]) s)
  | None, None =>
      if using_eval_result then
        ∀ results, auto_reduce_result_objs env outputs = Ok results →
          run = (Ok results, s)
      else run = (Ok raw, s)
  end ∧
  message (deprecation (legacy_name test_mode) (current_name test_mode)) =
    (if test_mode
     then "Method `test_end` was deprecated in v0.7 and will be removed in v1.0. Use `test_epoch_end` instead."
     else "Method `validation_end` was deprecated in v0.7 and will be removed in v1.0. Use `validation_epoch_end` instead.").
Proof.
  intros Hlen raw hook_input run.
  split; [|by destruct test_mode].
  assert (raw_eval_results outputs dataloaders = Ok (VList raw)) as Hraw.
  { unfold raw_eval_results, raw. case_bool_decide as Hone; [|done].
    destruct outputs; [simpl in *; lia|done]. }
  subst run hook_input. unfold run_eval_epoch_end, call_user_hook.
  rewrite Hraw. clear Hraw.
  unfold legacy_hook, current_hook, legacy_name, current_name.
  destruct test_mode;
    [destruct (test_end (get_model env)) as [hook|],
       (test_epoch_end (get_model env)) as [hook'|]
    |destruct (validation_end (get_model env)) as [hook|],
       (validation_epoch_end (get_model env)) as [hook'|]].
  all: destruct using_eval_result; try (intros arg Harg); destruct s.
  all: try (injection Harg as <-).
  all: rewrite ?Harg; run_monad; reflexivity.
Qed.

(** *** The publication *)

Lemma set_callback_metrics_id s : set_callback_metrics (callback_metrics s) s = s.
Proof. by destruct s. Qed.

Lemma log_results_run test_mode results vs acc s :
  mapM (result_views env test_mode) results = Ok vs →
  log_results env test_mode results acc s =
  (Ok (acc ++ reporting_mappings vs),
   set_callback_metrics (merge_callback_views (callback_metrics s) vs)
     (set_calls (calls s ++ sink_calls vs) s)).
Proof.
  revert vs acc s.
  induction results as [|result rest IH]; intros vs acc s Hvs.
  - injection Hvs as <-. simpl. rewrite !app_nil_r.
    by rewrite set_calls_id, set_callback_metrics_id.
  - rewrite mapM_res_cons in Hvs.
    destruct (result_views env test_mode result) as [v|] eqn:Hv; [|done].
    destruct (mapM (result_views env test_mode) rest) as [vs'|] eqn:Hvs';
      [|done].
    injection Hvs as <-. simpl.
    rewrite bind_run. unfold lift at 1. rewrite Hv.
    repeat (rewrite bind_run, record_run).
    rewrite bind_run. unfold callback_metrics_update, modify at 1.
    rewrite (IH vs') by done. simpl.
    unfold reporting_mappings. rewrite fmap_cons, filter_cons.
    f_equal.
    + f_equal. case_bool_decide; case_decide; try done.
      by rewrite <- app_assoc.
    + unfold set_callback_metrics, set_calls; simpl.
      by rewrite <- !app_assoc.
Qed.

Lemma log_results_raises test_mode results e acc s :
  mapM (result_views env test_mode) results = Raise e →
  (log_results env test_mode results acc s).1 = Raise e.
Proof.
  revert acc s.
  induction results as [|result rest IH]; intros acc s Hvs; [done|].
  rewrite mapM_res_cons in Hvs. simpl.
  rewrite bind_run. unfold lift at 1.
  destruct (result_views env test_mode result) as [v|] eqn:Hv.
  - destruct (mapM (result_views env test_mode) rest) as [vs'|] eqn:Hvs';
      [done|].
    injection Hvs as <-.
    repeat (rewrite bind_run, record_run).
    rewrite bind_run. unfold callback_metrics_update, modify at 1.
    by apply IH.
  - by injection Hvs as <-.
Qed.

Lemma print_results_run result_idx eval_loop_results s :
  print_results result_idx eval_loop_results s =
  (Ok tt, set_calls (calls s ++ report_calls result_idx eval_loop_results) s).
Proof.
  revert result_idx s.
  induction eval_loop_results as [|m rest IH]; intros result_idx s; simpl.
  - by rewrite app_nil_r, set_calls_id.
  - repeat (rewrite bind_run, record_run). rewrite IH.
    unfold set_calls; simpl. by rewrite <- !app_assoc.
Qed.

Lemma log_evaluation_epoch_metrics_run test_mode results vs s :
  mapM (result_views env test_mode) results = Ok vs →
  log_evaluation_epoch_metrics env (VList results) test_mode s =
  (Ok (reporting_mappings vs),
   set_callback_metrics (merge_callback_views (callback_metrics s) vs)
     (set_calls
        (calls s ++ sink_calls vs ++
           test_report test_mode s (reporting_mappings vs))
        s)).
Proof.
  intros Hvs. unfold log_evaluation_epoch_metrics, test_report.
  assert ((if bool_decide (0 < length results)%nat
           then log_results env test_mode results []
           else mret []) s
          = (Ok (reporting_mappings vs),
             set_callback_metrics
               (merge_callback_views (callback_metrics s) vs)
               (set_calls (calls s ++ sink_calls vs) s))) as Hloop.
  { case_bool_decide as Hlen.
    - by rewrite (log_results_run _ _ vs).
    - destruct results; [|simpl in Hlen; lia].
      injection Hvs as <-. by destruct s; simpl; rewrite app_nil_r. }
  rewrite bind_run, bind_run. unfold lift at 1. simpl len. cbv iota beta.
  change (as_list (VList results)) with results.
  rewrite Hloop. clear Hloop.
  destruct s as [cm td vd nt nv rl gz vt tg mb os cs].
  run_monad.
  destruct (test_mode && gz && vt); simpl.
  - rewrite print_results_run. simpl. by rewrite <- !app_assoc.
  - by rewrite app_nil_r.
Qed.

Lemma log_evaluation_epoch_metrics_raises test_mode results e s :
  mapM (result_views env test_mode) results = Raise e →
  (log_evaluation_epoch_metrics env (VList results) test_mode s).1 = Raise e.
Proof.
  intros Hvs. unfold log_evaluation_epoch_metrics.
  rewrite bind_run, bind_run. unfold lift at 1. simpl len. cbv iota beta.
  change (as_list (VList results)) with results.
  case_bool_decide as Hlen.
  - pose proof (log_results_raises test_mode results e [] s Hvs) as Hr.
    destruct (log_results env test_mode results [] s) as [[a|e'] s1];
      simpl in Hr; by simplify_eq.
  - destruct results; [done|simpl in Hlen; lia].
Qed.

Lemma mapM_result_views_structured test_mode (rs : list EvalResult.t) :
  mapM (result_views env test_mode) (VResult <$> rs) =
  Ok ((fun r => Views (EvalResult.epoch_pbar_metrics r)
                  (EvalResult.epoch_log_metrics r)
                  (if test_mode then ∅ else EvalResult.callback_metrics r))
        <$> rs).
Proof.
  induction rs as [|r rs IH]; [done|].
  rewrite !fmap_cons, mapM_res_cons, IH. done.
Qed.

(** *** [run_evaluation] *)

Lemma select_dataloaders_run test_mode s :
  ∃ dataloaders limits s0,
    select_dataloaders env test_mode s = (Ok (dataloaders, limits), s0) ∧
    callback_metrics s0 = callback_metrics s ∧
    outputs s0 = outputs s ∧
    calls s0 =
      calls s ++ on_pre_performance_check :: selection_calls test_mode s.
Proof.
  unfold select_dataloaders, do_reset_test_dataloader,
    do_reset_val_dataloader, selection_calls.
  destruct s as [cm td vd nt nv rl gz vt tg mb os cs], test_mode.
  - run_monad. eauto 10.
  - destruct vd; run_monad; rewrite ?app_nil_r; eauto 10.
Qed.

(** C7. When the selected mode has no dataloaders, or the batch limits sum
    to 0, [run_evaluation] returns two empty lists; the store and the epoch
    output are untouched and the only calls made are the pre-check hook, the
    reset of the dataloaders and, with dataloaders, the start hook. *)
Theorem nothing_to_evaluate test_mode s dataloaders limits s0 :
  select_dataloaders env test_mode s = (Ok (dataloaders, limits), s0) →
  dataloaders = None ∨ sum limits = 0 →
  ∃ s',
    run_evaluation env test_mode s = (Ok ([], []), s') ∧
    callback_metrics s' = callback_metrics s ∧
    outputs s' = outputs s ∧
    calls s' =
      calls s ++ on_pre_performance_check :: selection_calls test_mode s ++
      (if dataloaders is None then []
       else [if test_mode then on_test_start else on_validation_start]).
Proof.
  intros Hsel Hskip.
  destruct (select_dataloaders_run test_mode s)
    as (dataloaders' & limits' & s0' & Hsel' & Hcm & Hout & Hcalls).
  rewrite Hsel in Hsel'. injection Hsel' as <- <- <-.
  unfold run_evaluation. rewrite bind_run, Hsel.
  destruct dataloaders as [dls|].
  - destruct Hskip as [|Hsum]; [done|].
    rewrite bind_run, record_run, bool_decide_true by done.
    eexists. split; [done|]. simpl.
    rewrite Hcm, Hout, Hcalls. split; [done|]. split; [done|].
    by rewrite <- app_assoc.
  - eexists. split; [done|].
    rewrite Hcm, Hout, Hcalls, app_nil_r. done.
Qed.

(** Splits a hypothesis [(m ≫= f) s = (Ok x, s')] at its first step. *)
Ltac bind_inv H a s1 Hm :=
  rewrite bind_run in H;
  match type of H with
  | context [match ?m with (_, _) => _ end] =>
      destruct m as [[a|?] s1] eqn:Hm; [|discriminate H]
  end.

Lemma evaluate_inv dataloaders limits test_mode s eval_results s' :
  evaluate env dataloaders limits test_mode s = (Ok eval_results, s') →
  ∃ s1 s2,
    evaluate_batches env dataloaders limits test_mode s = (Ok tt, s1) ∧
    run_eval_epoch_end env test_mode (outputs s1) dataloaders
      (is_using_eval_results env (outputs s1)) s1 = (Ok eval_results, s2).
Proof.
  unfold evaluate. intros H.
  bind_inv H u s1 Hb. destruct u.
  rewrite bind_run in H. unfold gets at 1 in H.
  bind_inv H results s2 Hr.
  bind_inv H u s3 Hu.
  revert H. run_records. intros [= <- <-]. eauto.
Qed.

Lemma run_selected_inv dataloaders limits test_mode s reporting eval_results s' :
  run_selected env dataloaders limits test_mode s =
    (Ok (reporting, eval_results), s') →
  ∃ s1 s2,
    evaluate env dataloaders (Ints limits) test_mode s = (Ok eval_results, s1) ∧
    log_evaluation_epoch_metrics env (VList eval_results) test_mode s1 =
      (Ok reporting, s2).
Proof.
  unfold run_selected, do_reset_test_dataloader, do_reset_val_dataloader.
  intros H.
  bind_inv H results s1 He.
  bind_inv H mappings s2 Hl.
  assert (mappings = reporting ∧ results = eval_results) as [-> ->].
  { clear Hl. revert H. destruct s2 as [cm td vd nt nv rl gz vt tg mb os cs].
    destruct test_mode, rl; run_monad; by intros [= <- <-]. }
  eauto.
Qed.

Lemma run_evaluation_inv test_mode s reporting eval_results s' :
  run_evaluation env test_mode s = (Ok (reporting, eval_results), s') →
  (reporting = [] ∧ eval_results = []) ∨
  ∃ dataloaders limits s0,
    sum limits ≠ 0 ∧
    select_dataloaders env test_mode s = (Ok (Some dataloaders, limits), s0) ∧
    run_selected env dataloaders limits test_mode
      (set_calls
         (calls s0 ++ [if test_mode then on_test_start else on_validation_start])
         s0) =
    (Ok (reporting, eval_results), s').
Proof.
  unfold run_evaluation. intros H.
  bind_inv H sel s0 Hsel. destruct sel as [[dataloaders|] limits].
  - rewrite bind_run, record_run in H.
    case_bool_decide as Hsum.
    + left. by injection H as <- <- <-.
    + right. eauto 10.
  - left. by injection H as <- <- <-.
Qed.

Lemma mapM_res_length {A B} (f : A -> res B) l k :
  mapM f l = Ok k → length k = length l.
Proof.
  revert k. induction l as [|x l IH]; intros k H.
  - by injection H as <-.
  - rewrite mapM_res_cons in H.
    destruct (f x) as [y|]; [|done].
    destruct (mapM f l) as [k'|]; [|done].
    injection H as <-. simpl. by rewrite (IH k').
Qed.

Lemma auto_reduce_result_objs_shape outputs results :
  auto_reduce_result_objs env outputs = Ok results →
  length results = length outputs ∧
  Forall (fun v => is_result v = true) results.
Proof.
  unfold auto_reduce_result_objs. intros H.
  split; [by apply mapM_res_length in H|].
  revert results H. induction outputs as [|o outputs IH]; intros results H.
  - injection H as <-. constructor.
  - rewrite mapM_res_cons in H.
    destruct (class_call _ o) as [r|]; [|done]. simpl in H.
    destruct (mapM _ outputs) as [k|] eqn:Hk; [|done].
    injection H as <-. constructor; [done|]. by apply IH.
Qed.

(** Without an epoch-end hook and with structured outputs, the epoch
    reduction is the auto-reduce. *)
Lemma run_eval_epoch_end_auto test_mode outputs dataloaders s results s' :
  legacy_hook (get_model env) test_mode = None →
  current_hook (get_model env) test_mode = None →
  run_eval_epoch_end env test_mode outputs dataloaders true s =
    (Ok results, s') →
  auto_reduce_result_objs env outputs = Ok results.
Proof.
  unfold legacy_hook, current_hook, run_eval_epoch_end.
  intros Hl Hc H. bind_inv H raw s1 Hraw.
  revert H. destruct test_mode; rewrite Hl, Hc;
    destruct (auto_reduce_result_objs env outputs) as [rs|];
    destruct s1; run_monad; by intros [= <- <-].
Qed.

Lemma run_evaluation_selected test_mode s dataloaders limits s0 :
  select_dataloaders env test_mode s = (Ok (Some dataloaders, limits), s0) →
  sum limits ≠ 0 →
  run_evaluation env test_mode s =
  run_selected env dataloaders limits test_mode
    (set_calls
       (calls s0 ++ [if test_mode then on_test_start else on_validation_start])
       s0).
Proof.
  intros Hsel Hsum. unfold run_evaluation.
  rewrite bind_run, Hsel, bind_run, record_run.
  by rewrite bool_decide_false.
Qed.

(** A run that is not skipped and returns went through the batch loop, the
    epoch reduction and the emission, in this order. *)
Lemma run_evaluation_stages test_mode s dataloaders limits s0 reporting
    eval_results s' :
  select_dataloaders env test_mode s = (Ok (Some dataloaders, limits), s0) →
  sum limits ≠ 0 →
  length limits = length dataloaders →
  run_evaluation env test_mode s = (Ok (reporting, eval_results), s') →
  ∃ s1 s2 s3 s4,
    evaluate_batches env dataloaders (Ints limits) test_mode
      (set_calls
         (calls s0 ++ [if test_mode then on_test_start else on_validation_start])
         s0) = (Ok tt, s1) ∧
    outputs s1 = loop_outputs env test_mode limits dataloaders ∧
    run_eval_epoch_end env test_mode (outputs s1) dataloaders
      (is_using_eval_results env (outputs s1)) s1 = (Ok eval_results, s2) ∧
    log_evaluation_epoch_metrics env (VList eval_results) test_mode s3 =
      (Ok reporting, s4).
Proof.
  intros Hsel Hsum Hlen Hrun.
  rewrite (run_evaluation_selected _ _ _ _ _ Hsel Hsum) in Hrun.
  apply run_selected_inv in Hrun as (s3 & s4 & Hev & Hlog).
  apply evaluate_inv in Hev as (s1 & s2 & Hb & Hr).
  exists s1, s2, s3, s4. split; [done|]. split; [|done].
  rewrite evaluate_batches_run in Hb by (simpl; lia).
  by injection Hb as <-.
Qed.

(** C2, as the code has it. A run that is not skipped returns, as its
    second component, the list that the epoch reduction returns, as it is:
    [run_evaluation] unwraps nothing.  With one dataloader, structured
    outputs and no epoch-end hook that list has one element, the
    auto-reduced result. *)
Theorem epoch_results_stay_wrapped test_mode s dataloaders limits s0
    reporting eval_results s' :
  select_dataloaders env test_mode s = (Ok (Some dataloaders, limits), s0) →
  sum limits ≠ 0 →
  length limits = length dataloaders →
  run_evaluation env test_mode s = (Ok (reporting, eval_results), s') →
  ∃ s1 s2,
    evaluate_batches env dataloaders (Ints limits) test_mode
      (set_calls
         (calls s0 ++ [if test_mode then on_test_start else on_validation_start])
         s0) = (Ok tt, s1) ∧
    run_eval_epoch_end env test_mode (outputs s1) dataloaders
      (is_using_eval_results env (outputs s1)) s1 = (Ok eval_results, s2) ∧
    (length dataloaders = 1%nat →
     is_using_eval_results env (outputs s1) = true →
     legacy_hook (get_model env) test_mode = None →
     current_hook (get_model env) test_mode = None →
     ∃ r, eval_results = [VResult r] ∧
          auto_reduce_result_objs env (outputs s1) = Ok [VResult r]).
Proof.
  intros Hsel Hsum Hlen Hrun.
  destruct (run_evaluation_stages _ _ _ _ _ _ _ _ Hsel Hsum Hlen Hrun)
    as (s1 & s2 & s3 & s4 & Hb & Hout & Hr & _).
  exists s1, s2. split; [done|]. split; [done|].
  intros Hone Husing Hl Hc. rewrite Husing in Hr.
  apply run_eval_epoch_end_auto in Hr; [|done..].
  destruct (auto_reduce_result_objs_shape _ _ Hr) as [Hlen' Hall].
  rewrite Hout in Hlen'. unfold loop_outputs in Hlen'.
  rewrite length_imap, Hone in Hlen'.
  destruct eval_results as [|v [|? ?]]; try done.
  apply Forall_cons in Hall as [Hv _]. destruct v; try done. eauto.
Qed.

(** C9, as the code has it. The reporting list holds, in order, the merged
    mapping of every entry of the epoch-result list whose merged mapping is
    not empty: it has at most as many mappings as that list has entries.
    After the auto-reduce the epoch-result list has one entry per
    dataloader. *)
Theorem reporting_list_of_epoch_results test_mode s reporting eval_results s' :
  run_evaluation env test_mode s = (Ok (reporting, eval_results), s') →
  (∃ vs,
     mapM (result_views env test_mode) eval_results = Ok vs ∧
     reporting = reporting_mappings vs ∧
     (length reporting ≤ length eval_results)%nat) ∧
  ∀ dataloaders limits s0,
    select_dataloaders env test_mode s = (Ok (Some dataloaders, limits), s0) →
    sum limits ≠ 0 →
    length limits = length dataloaders →
    is_using_eval_results env
      (loop_outputs env test_mode limits dataloaders) = true →
    legacy_hook (get_model env) test_mode = None →
    current_hook (get_model env) test_mode = None →
    length eval_results = length dataloaders ∧
    (length reporting ≤ length dataloaders)%nat.
Proof.
  intros Hrun.
  assert (∃ vs,
            mapM (result_views env test_mode) eval_results = Ok vs ∧
            reporting = reporting_mappings vs ∧
            (length reporting ≤ length eval_results)%nat) as Hvs.
  { destruct (run_evaluation_inv _ _ _ _ _ Hrun)
      as [[-> ->]|(dls & lims & s0 & _ & _ & Hsel)].
    { by exists []. }
    apply run_selected_inv in Hsel as (s1 & s2 & _ & Hlog).
    destruct (mapM (result_views env test_mode) eval_results) as [vs|e] eqn:Hvs.
    - rewrite (log_evaluation_epoch_metrics_run _ _ vs) in Hlog by done.
      injection Hlog as <- _. exists vs. split; [done|]. split; [done|].
      apply mapM_res_length in Hvs. rewrite <- Hvs.
      unfold reporting_mappings.
      etrans; [apply length_filter|]. by rewrite length_fmap.
    - apply (log_evaluation_epoch_metrics_raises _ _ _ s1) in Hvs.
      rewrite Hlog in Hvs. done. }
  split; [done|].
  intros dataloaders limits s0 Hsel Hsum Hlen Husing Hl Hc.
  destruct (run_evaluation_stages _ _ _ _ _ _ _ _ Hsel Hsum Hlen Hrun)
    as (s1 & s2 & s3 & s4 & Hb & Hout & Hr & _).
  rewrite Hout, Husing in Hr.
  apply run_eval_epoch_end_auto in Hr; [|done..].
  destruct (auto_reduce_result_objs_shape _ _ Hr) as [Hlen' _].
  unfold loop_outputs in Hlen'. rewrite length_imap in Hlen'.
  destruct Hvs as (vs & _ & _ & Hle). split; [done|]. lia.
Qed.

(** C4, as the code has it. In testing, the emission of the epoch metrics
    of structured results returns and leaves the callback-metric store as it
    was. *)
Theorem test_mode_keeps_store (results : list EvalResult.t) s :
  ∃ reporting s',
    log_evaluation_epoch_metrics env (VList (VResult <$> results)) true s =
      (Ok reporting, s') ∧
    callback_metrics s' = callback_metrics s.
Proof.
  do 2 eexists. split.
  { apply log_evaluation_epoch_metrics_run, mapM_result_views_structured. }
  destruct s as [cm td vd nt nv rl gz vt tg mb os cs]; simpl.
  generalize cm. induction results as [|r rs IH]; intros cm'; [done|].
  simpl. rewrite IH. apply (left_id_L ∅ (∪)).
Qed.

(** The legacy branch of the sync merges: every key of the store is kept. *)
Lemma update_from_legacy_keeps_keys eval_result s s' :
  update_from_legacy env eval_result s = (Ok tt, s') →
  dom (callback_metrics s) ⊆ dom (callback_metrics s').
Proof.
  unfold update_from_legacy. intros H.
  bind_inv H flat s1 Hflat.
  assert (s1 = s) as ->.
  { destruct eval_result; simpl in Hflat;
      unfold lift, mret, M_ret in Hflat; congruence. }
  injection H as <-. destruct s; simpl. set_solver.
Qed.

(** X9. When the legacy branch of the sync returns, every key the store
    held is still in the store: the branch only updates. *)
Lemma update_callback_metrics_legacy_keeps_keys eval_results s s' :
  update_callback_metrics env eval_results false s = (Ok tt, s') →
  dom (callback_metrics s) ⊆ dom (callback_metrics s').
Proof.
  assert (∀ l s s', for_each l (update_from_legacy env) s = (Ok tt, s') →
                    dom (callback_metrics s) ⊆ dom (callback_metrics s'))
    as Hloop.
  { clear. intros l. induction l as [|x l IH]; intros s s' H.
    - by injection H as <-.
    - simpl in H. bind_inv H u s1 Hx. destruct u.
      etrans; [by eapply update_from_legacy_keeps_keys|by apply IH]. }
  unfold update_callback_metrics.
  destruct eval_results; eauto using update_from_legacy_keeps_keys.
Qed.

(** ** More on the sync of the callback metrics *)

Lemma set_callback_metrics_twice m m' s :
  set_callback_metrics m (set_callback_metrics m' s) = set_callback_metrics m s.
Proof. reflexivity. Qed.

Lemma for_each_assign_results (rs : list EvalResult.t) s :
  for_each (VResult <$> rs) assign_callback_metrics s =
  (Ok tt,
   set_callback_metrics
     (default (callback_metrics s) (EvalResult.callback_metrics <$> last rs))
     s).
Proof.
  revert s. induction rs as [|r rs IH]; intros s.
  - simpl. by rewrite set_callback_metrics_id.
  - rewrite fmap_cons. cbn [for_each]. rewrite bind_run.
    unfold assign_callback_metrics at 1. rewrite bind_run.
    unfold lift at 1, modify at 1. cbn [as_result].
    rewrite IH, set_callback_metrics_twice. do 2 f_equal.
    rewrite last_cons. by destruct (last rs).
Qed.

(** X6. The structured branch of the sync, over any list of structured
    results: the store becomes the callback metrics of the last result (it
    is left alone when the list is empty) and nothing else of the trainer
    changes. *)
Theorem structured_sync_last_result_wins (rs : list EvalResult.t) s :
  update_callback_metrics env (VList (VResult <$> rs)) true s =
  (Ok tt,
   set_callback_metrics
     (default (callback_metrics s) (EvalResult.callback_metrics <$> last rs))
     s).
Proof. apply for_each_assign_results. Qed.

(** X7. The structured branch of the sync raises [AttributeError] at the first
    epoch result that is not a structured result (what a user hook may
    return), and keeps what the results before it did to the store. *)
Theorem structured_sync_raises_on_other_results (rs : list EvalResult.t)
    (v : value) (rest : list value) s :
  is_result v = false →
  update_callback_metrics env (VList ((VResult <$> rs) ++ v :: rest)) true s =
  (Raise AttributeError,
   set_callback_metrics
     (default (callback_metrics s) (EvalResult.callback_metrics <$> last rs))
     s).
Proof.
  intros Hv. cbn [update_callback_metrics].
  assert (∀ s, for_each (v :: rest) assign_callback_metrics s =
               (Raise AttributeError, s)) as Hraise.
  { intros s0. cbn [for_each]. rewrite bind_run.
    unfold assign_callback_metrics at 1. rewrite bind_run. unfold lift at 1.
    by destruct v. }
  revert s. induction rs as [|r rs IH]; intros s.
  - simpl app. rewrite Hraise. simpl. by rewrite set_callback_metrics_id.
  - rewrite fmap_cons. simpl app. cbn [for_each]. rewrite bind_run.
    unfold assign_callback_metrics at 1. rewrite bind_run.
    unfold lift at 1, modify at 1. cbn [as_result].
    rewrite IH, set_callback_metrics_twice. do 2 f_equal.
    rewrite last_cons. by destruct (last rs).
Qed.

Lemma for_each_update_scalars (ts : list tensor) s :
  for_each (VTensor <$> ts) (update_from_legacy env) s =
  (Ok tt,
   set_callback_metrics
     (match last ts with
      | Some t => <["val_loss" := t]> (callback_metrics s)
      | None => callback_metrics s
      end)
     s).
Proof.
  revert s. induction ts as [|t ts IH]; intros s.
  - simpl. by rewrite set_callback_metrics_id.
  - rewrite fmap_cons. cbn [for_each]. rewrite bind_run.
    unfold update_from_legacy at 1. rewrite bind_run.
    unfold callback_metrics_update, modify at 1.
    change ((mret {["val_loss" := t]} : M batch _) s)
      with (Ok ({["val_loss" := t]} : gmap string tensor), s).
    cbv iota beta. rewrite IH, set_callback_metrics_twice. do 2 f_equal.
    destruct s as [cm td vd nt nv rl gz vt tg mb os cs]; simpl.
    rewrite <- insert_union_singleton_l, last_cons.
    destruct (last ts); [by rewrite insert_insert_eq|done].
Qed.

(** X8. The legacy branch of the sync, over a list of scalar results: the last
    scalar is bound to ["val_loss"], every other key of the store keeps its
    value, and nothing else of the trainer changes. *)
Theorem legacy_sync_binds_val_loss (ts : list tensor) s :
  update_callback_metrics env (VList (VTensor <$> ts)) false s =
  (Ok tt,
   set_callback_metrics
     (match last ts with
      | Some t => <["val_loss" := t]> (callback_metrics s)
      | None => callback_metrics s
      end)
     s).
Proof. apply for_each_update_scalars. Qed.

(** ** More on the emission of the epoch metrics *)

Lemma mapM_res_Forall2 {A B} (f : A -> res B) l k :
  mapM f l = Ok k → Forall2 (fun x y => f x = Ok y) l k.
Proof.
  revert k. induction l as [|x l IH]; intros k H.
  - injection H as <-. constructor.
  - rewrite mapM_res_cons in H.
    destruct (f x) as [y|] eqn:Hy; [|done].
    destruct (mapM f l) as [k'|]; [|done].
    injection H as <-. constructor; [done|]. by apply IH.
Qed.

(** A call of the emission that returns has computed the views of every
    epoch result. *)
Lemma log_evaluation_epoch_metrics_inv test_mode results s reporting s' :
  log_evaluation_epoch_metrics env (VList results) test_mode s =
    (Ok reporting, s') →
  ∃ vs,
    mapM (result_views env test_mode) results = Ok vs ∧
    reporting = reporting_mappings vs ∧
    s' = set_callback_metrics (merge_callback_views (callback_metrics s) vs)
           (set_calls
              (calls s ++ sink_calls vs ++
                 test_report test_mode s (reporting_mappings vs))
              s).
Proof.
  intros H.
  destruct (mapM (result_views env test_mode) results) as [vs|e] eqn:Hvs.
  - rewrite (log_evaluation_epoch_metrics_run _ _ vs) in H by done.
    injection H as <- <-. eauto.
  - apply (log_evaluation_epoch_metrics_raises _ _ _ s) in Hvs.
    by rewrite H in Hvs.
Qed.

Lemma dom_merge_callback_views store vs :
  dom store ⊆ dom (merge_callback_views store vs) ∧
  ∀ v, v ∈ vs → dom (callback_view v) ⊆ dom (merge_callback_views store vs).
Proof.
  revert store. induction vs as [|v vs IH]; intros store; simpl.
  - split; [done|]. intros v Hv. by apply elem_of_nil in Hv.
  - destruct (IH (callback_view v ∪ store)) as [Hsub Hin]. clear IH.
    rewrite dom_union_L in Hsub. split.
    + etrans; [apply union_subseteq_r|exact Hsub].
    + intros v' [->|Hv']%elem_of_cons; [|by apply Hin].
      etrans; [apply union_subseteq_l|exact Hsub].
Qed.

(** X11. The emission only adds to the store: every key it held is still
    there, and outside testing every callback metric of every structured
    epoch result is there too. *)
Theorem emission_keeps_and_publishes_keys test_mode results s reporting s' :
  log_evaluation_epoch_metrics env (VList results) test_mode s =
    (Ok reporting, s') →
  dom (callback_metrics s) ⊆ dom (callback_metrics s') ∧
  (test_mode = false →
   ∀ r, VResult r ∈ results →
        dom (EvalResult.callback_metrics r) ⊆ dom (callback_metrics s')).
Proof.
  intros (vs & Hvs & _ & ->)%log_evaluation_epoch_metrics_inv.
  destruct (dom_merge_callback_views (callback_metrics s) vs) as [Hsub Hin].
  split; [done|].
  intros -> r Hr. apply mapM_res_Forall2 in Hvs.
  apply list_elem_of_lookup in Hr as [i Hi].
  destruct (Forall2_lookup_l _ _ _ _ _ Hvs Hi) as (v & Hv & Hview).
  injection Hview as <-. apply (Hin _ (list_elem_of_lookup_2 _ _ _ Hv)).
Qed.





(** X12. For every epoch result, in order, the emission forwards the progress
    bar view and then the log view, also for a result whose merged mapping
    is empty and is left out of the reporting list; the calls of the test
    report, if any, come after all of them. *)
Theorem emission_forwards_every_result test_mode results s reporting s' :
  log_evaluation_epoch_metrics env (VList results) test_mode s =
    (Ok reporting, s') →
  ∃ vs report,
    Forall2 (fun result v => result_views env test_mode result = Ok v)
      results vs ∧
    calls s' =
      calls s ++
      flat_map (fun v => [add_progress_bar_metrics (prog_bar_view v);
                          log_metrics (log_view v)]) vs ++
      report ∧
    Forall (fun c => match c with print _ | pprint _ => True | _ => False end)
      report.
Proof.
  intros (vs & Hvs & -> & ->)%log_evaluation_epoch_metrics_inv.
  exists vs, (test_report test_mode s (reporting_mappings vs)).
  split; [by apply mapM_res_Forall2|]. split; [by destruct s|].
  unfold test_report. destruct (_ && _ && _); [|constructor].
  constructor; [done|]. generalize 0%nat.
  induction (reporting_mappings vs) as [|m ms IH]; intros i; simpl;
    [constructor|].
  repeat (constructor; [done|]). apply IH.
Qed.


(** ** More on the batch loop *)

(** The outer loop for any list of limits: it processes the dataloaders
    that have a limit and raises at the first one that has none. *)
Lemma eval_dataloaders_any test_mode i dataloaders s :
  (i ≤ length (max_batches s))%nat →
  let done := take (length (max_batches s) - i) dataloaders in
  eval_dataloaders env test_mode i dataloaders s =
  (if bool_decide (i + length dataloaders ≤ length (max_batches s))%nat
   then Ok tt else Raise IndexError,
   set_loop (max_batches s)
     (outputs s ++
        imap (fun k dl => omap (kept_output env test_mode (i + k))
                            (loader_positions env (max_batches s) (i + k) dl))
          done)
     (set_calls
        (calls s ++
           concat (imap (fun k dl =>
                           flat_map (batch_calls env test_mode (i + k))
                             (loader_positions env (max_batches s) (i + k) dl))
                     done))
        s)).
Proof.
  revert i s.
  induction dataloaders as [|dl rest IH]; intros i s Hle.
  - simpl. rewrite take_nil. simpl.
    rewrite bool_decide_true, !app_nil_r by lia. by destruct s.
  - cbn [eval_dataloaders].
    rewrite bind_run. unfold gets at 1. rewrite bind_run.
    unfold lift, index.
    destruct (max_batches s !! i) as [m|] eqn:Hm.
    + pose proof (lookup_lt_Some _ _ _ Hm) as Hi.
      rewrite bind_run, eval_batches_run.
      rewrite bind_run. unfold modify at 1.
      destruct s as [cm td vd nt nv rl gz vt tg mb os cs]; simpl in *.
      rewrite IH by (simpl; lia). simpl.
      replace (length mb - i)%nat with (S (length mb - S i)) by lia.
      simpl. unfold loader_positions at 3 5. rewrite !Nat.add_0_r, Hm. simpl.
      unfold set_loop, set_calls; simpl. f_equal.
      * repeat case_bool_decide; try done; lia.
      * f_equal.
        -- rewrite <- app_assoc. simpl. do 2 f_equal.
           apply imap_ext. intros k x _. simpl. by rewrite Nat.add_succ_r.
        -- rewrite <- app_assoc. do 3 f_equal.
           apply imap_ext. intros k x _. simpl. by rewrite Nat.add_succ_r.
    + pose proof (lookup_ge_None_1 _ _ Hm) as Hi.
      replace (length (max_batches s) - i)%nat with 0%nat by lia.
      simpl. rewrite bool_decide_false, !app_nil_r by lia. by destruct s.
Qed.

Lemma evaluate_batches_any dataloaders limits test_mode s :
  let per := per_loader limits (length dataloaders) in
  evaluate_batches env dataloaders limits test_mode s =
  (if bool_decide (length dataloaders ≤ length per)%nat
   then Ok tt else Raise IndexError,
   set_loop per
     (loop_outputs env test_mode per (take (length per) dataloaders))
     (set_calls
        (calls s ++ [evaluation_loop_setup; on_evaluation_epoch_start] ++
           loop_calls env test_mode per (take (length per) dataloaders))
        (set_testing test_mode s))).
Proof.
  intros per. unfold evaluate_batches, setup. fold per.
  destruct s as [cm td vd nt nv rl gz vt tg mb os cs].
  rewrite bind_run. unfold modify at 1.
  rewrite !bind_run, record_run. unfold modify at 1.
  rewrite bind_run, record_run. simpl.
  rewrite eval_dataloaders_any by (simpl; lia). simpl. rewrite Nat.sub_0_r.
  unfold loop_outputs, loop_calls, set_loop, set_calls; simpl.
  by rewrite <- !app_assoc.
Qed.

(** X1. The batch loop returns when every dataloader has a limit.  With fewer
    limits than dataloaders it raises [IndexError], after it has processed
    the dataloaders that have one. *)
Theorem batch_loop_needs_a_limit_per_loader dataloaders (limits : list Z)
    test_mode s :
  (evaluate_batches env dataloaders (Ints limits) test_mode s).1 =
    (if bool_decide (length dataloaders ≤ length limits)%nat
     then Ok tt else Raise IndexError) ∧
  outputs (evaluate_batches env dataloaders (Ints limits) test_mode s).2 =
    loop_outputs env test_mode limits (take (length limits) dataloaders) ∧
  length (outputs (evaluate_batches env dataloaders (Ints limits) test_mode s).2)
    = (length dataloaders `min` length limits)%nat.
Proof.
  rewrite evaluate_batches_any. simpl.
  split; [done|]. split; [done|].
  unfold loop_outputs. rewrite length_imap, length_take. lia.
Qed.

(** X2. No step output that is [None] is kept: whatever the limits, and whether
    the loop returns or raises, the epoch output holds none. *)
Theorem epoch_output_holds_no_none dataloaders limits test_mode s :
  Forall (Forall (fun output => is_none output = false))
    (outputs (evaluate_batches env dataloaders limits test_mode s).2).
Proof.
  rewrite evaluate_batches_any. simpl. unfold loop_outputs.
  apply Forall_forall. intros o Ho.
  apply list_elem_of_lookup in Ho as [i Hi].
  rewrite list_lookup_imap in Hi.
  destruct (take _ dataloaders !! i) as [dl|]; [|done].
  injection Hi as <-.
  induction (loader_positions _ _ _ _) as [|p ps IH]; [constructor|].
  cbn. unfold kept_output at 1.
  destruct (is_none _) eqn:Hnone; [done|]. by constructor.
Qed.

Lemma processed_all dl_max k (bs : list batch) :
  Z.of_nat (k + length bs) ≤ dl_max →
  processed dl_max k (Some <$> bs) = imap (fun j b => ((k + j)%nat, b)) bs.
Proof.
  revert k. induction bs as [|b bs IH]; intros k Hle; [done|].
  rewrite fmap_cons. cbn [processed].
  rewrite bool_decide_false by (simpl in Hle; lia).
  rewrite IH by (simpl in Hle; lia). simpl. rewrite Nat.add_0_r. f_equal.
  apply imap_ext. intros j x _. simpl. f_equal. lia.
Qed.

Lemma omap_kept_output_all test_mode i (k : nat) (bs : list batch) :
  (∀ j b, bs !! j = Some b →
          is_none (evaluation_step_end env
                     (evaluation_step env test_mode b (k + j) i)) = false) →
  omap (kept_output env test_mode i) (imap (fun j b => ((k + j)%nat, b)) bs) =
  imap (fun j b =>
          evaluation_step_end env (evaluation_step env test_mode b (k + j) i))
    bs.
Proof.
  revert k. induction bs as [|b bs IH]; intros k Hsome; [done|].
  cbn. unfold kept_output at 1. simpl.
  rewrite (Hsome 0%nat b eq_refl). f_equal.
  rewrite (imap_ext _ (fun j b0 => ((S k + j)%nat, b0)) bs)
    by (intros j x _; simpl; f_equal; lia).
  rewrite IH.
  - apply imap_ext. intros j x _. simpl. do 2 f_equal. lia.
  - intros j b' Hj. replace (S k + j)%nat with (k + S j)%nat by lia.
    by apply (Hsome (S j)).
Qed.

(** X3. A full pass: when a dataloader yields no [None] batch, its limit is
    not below its number of batches and no step output is [None], its entry
    in the epoch output is the list of the step outputs of all its batches,
    in order. *)
Theorem full_pass_keeps_every_output dataloaders (limits : list Z) test_mode s
    i dl (bs : list batch) m :
  dataloaders !! i = Some dl →
  limits !! i = Some m →
  process_dataloader env dl = Some <$> bs →
  Z.of_nat (length bs) ≤ m →
  (∀ j b, bs !! j = Some b →
          is_none (evaluation_step_end env
                     (evaluation_step env test_mode b j i)) = false) →
  outputs (evaluate_batches env dataloaders (Ints limits) test_mode s).2 !! i =
  Some (imap (fun j b =>
                evaluation_step_end env (evaluation_step env test_mode b j i))
          bs).
Proof.
  intros Hdl Hm Hbs Hle Hsome.
  rewrite evaluate_batches_any. simpl. unfold loop_outputs.
  rewrite list_lookup_imap, lookup_take_lt by (by eapply lookup_lt_Some).
  rewrite Hdl. simpl. f_equal.
  unfold loader_positions. rewrite Hm, Hbs. simpl.
  rewrite processed_all by (simpl; lia).
  by rewrite (omap_kept_output_all test_mode i 0).
Qed.

(** ** What the parts of a run record *)

Lemma appends_ret {A} P (a : A) : appends (batch:=batch) P (mret a).
Proof. intros s. exists []. by rewrite app_nil_r. Qed.

Lemma appends_lift {A} P (r : res A) : appends (batch:=batch) P (lift r).
Proof. intros s. exists []. by rewrite app_nil_r. Qed.

Lemma appends_gets {A} P (f : Trainer batch -> A) : appends P (gets f).
Proof. intros s. exists []. by rewrite app_nil_r. Qed.

Lemma appends_modify P (f : Trainer batch -> Trainer batch) :
  (∀ s, calls (f s) = calls s ∧ config (f s) = config s) →
  appends P (modify f).
Proof.
  intros Hf s. exists []. destruct (Hf s) as [Hc Hk].
  simpl. by rewrite app_nil_r.
Qed.

Lemma appends_record (P : call batch -> bool) c :
  P c = true → appends P (record c).
Proof.
  intros Hc s. exists [c]. destruct s. simpl.
  split; [done|]. split; [by constructor|done].
Qed.

Lemma appends_bind {A B} P (m : M batch A) (f : A -> M batch B) :
  appends P m → (∀ a, appends P (f a)) → appends P (m ≫= f).
Proof.
  intros Hm Hf s. rewrite bind_run.
  destruct (Hm s) as (new & Hc & Hnew & Hk).
  destruct (m s) as [[a|e] s1]; simpl in *; [|by eauto].
  destruct (Hf a s1) as (new' & Hc' & Hnew' & Hk').
  exists (new ++ new'). rewrite Hc', Hc, Hk', Hk, app_assoc.
  split; [done|]. split; [by apply Forall_app|done].
Qed.

Lemma appends_fmap {A B} P (g : A -> B) (m : M batch A) :
  appends P m → appends P (g <$> m).
Proof.
  intros Hm s. destruct (Hm s) as (new & Hc & Hnew & Hk).
  exists new. unfold fmap, M_fmap.
  by destruct (m s) as [[a|e] s1].
Qed.

Lemma appends_mono {A} (P Q : call batch -> bool) (m : M batch A) :
  (∀ c, P c = true → Q c = true) → appends P m → appends Q m.
Proof.
  intros HPQ Hm s. destruct (Hm s) as (new & Hc & Hnew & Hk).
  exists new. split; [done|]. split; [|done].
  eapply Forall_impl; [done|]. auto.
Qed.

Lemma appends_for_each {A} P (l : list A) (body : A -> M batch unit) :
  (∀ x, appends P (body x)) → appends P (for_each l body).
Proof.
  intros Hbody. induction l as [|x l IH]; simpl.
  - apply appends_ret.
  - apply appends_bind; [done|]. by intros _.
Qed.

(** Closes a goal about booleans by cases. *)
Ltac by_bools :=
  repeat match goal with b : bool |- _ => destruct b end; done.

(** Proves [appends] for a computation made of binds, recorded calls and
    reads. *)
Ltac appends_steps :=
  repeat first
    [ apply appends_ret | apply appends_lift | apply appends_gets
    | apply appends_record; reflexivity
    | apply appends_modify; by intros []
    | apply appends_bind; [|intros ?]
    | apply appends_fmap ].

Lemma appends_eval_batches test_mode i dl_max batch_idx dl dl_outputs :
  appends (is_loop_call test_mode)
    (eval_batches env test_mode i dl_max batch_idx dl dl_outputs).
Proof.
  revert batch_idx dl_outputs.
  induction dl as [|[b|] rest IH]; intros batch_idx dl_outputs;
    cbn [eval_batches].
  - apply appends_ret.
  - case_bool_decide; [apply appends_ret|].
    do 6 (apply appends_bind;
          [apply appends_record; simpl; by rewrite ?eqb_reflx|intros _]).
    apply IH.
  - apply IH.
Qed.

Lemma appends_eval_dataloaders test_mode i dataloaders :
  appends (is_loop_call test_mode)
    (eval_dataloaders env test_mode i dataloaders).
Proof.
  revert i. induction dataloaders as [|dl rest IH]; intros i;
    cbn [eval_dataloaders].
  - apply appends_ret.
  - apply appends_bind; [apply appends_gets|intros limits].
    apply appends_bind; [apply appends_lift|intros m].
    apply appends_bind; [apply appends_eval_batches|intros o].
    apply appends_bind; [apply appends_modify; by intros []|intros _].
    apply IH.
Qed.

Lemma appends_evaluate_batches dataloaders limits test_mode :
  appends (is_loop_call test_mode)
    (evaluate_batches env dataloaders limits test_mode).
Proof.
  unfold evaluate_batches, setup.
  apply appends_bind; [apply appends_modify; by intros []|intros _].
  apply appends_bind; [appends_steps|intros _].
  apply appends_bind; [appends_steps|intros _].
  apply appends_eval_dataloaders.
Qed.

Lemma appends_run_eval_epoch_end test_mode outputs dataloaders flag :
  appends is_reduction_call
    (run_eval_epoch_end env test_mode outputs dataloaders flag).
Proof.
  unfold run_eval_epoch_end, call_user_hook.
  apply appends_bind; [apply appends_lift|intros raw].
  apply appends_bind.
  - destruct test_mode;
      [destruct (test_end (get_model env)), (test_epoch_end (get_model env))
      |destruct (validation_end (get_model env)),
         (validation_epoch_end (get_model env))];
      destruct flag; appends_steps.
  - intros [eval_results user_reduced].
    destruct (flag && negb user_reduced); appends_steps.
Qed.

Lemma appends_update_callback_metrics eval_results flag :
  appends (fun _ => false) (update_callback_metrics env eval_results flag).
Proof.
  unfold update_callback_metrics.
  assert (∀ v, appends (batch:=batch) (fun _ => false)
                 (assign_callback_metrics v)) as Ha.
  { intros v. unfold assign_callback_metrics. appends_steps. }
  assert (∀ v, appends (batch:=batch) (fun _ => false)
                 (update_from_legacy env v)) as Hu.
  { intros v. unfold update_from_legacy, callback_metrics_update.
    apply appends_bind; [destruct v; appends_steps|intros flat].
    appends_steps. }
  destruct flag, eval_results; auto using appends_for_each.
Qed.

Lemma appends_log_evaluation_epoch_metrics eval_results test_mode :
  appends (is_emission_call test_mode)
    (log_evaluation_epoch_metrics env eval_results test_mode).
Proof.
  assert (∀ results acc,
            appends (is_emission_call test_mode)
              (log_results env test_mode results acc)) as Hloop.
  { intros results. induction results as [|r rs IH]; intros acc;
      cbn [log_results]; [apply appends_ret|].
    unfold callback_metrics_update.
    apply appends_bind; [apply appends_lift|intros v].
    do 3 (apply appends_bind; [appends_steps|intros _]).
    apply IH. }
  assert (∀ i l, test_mode = true →
                 appends (is_emission_call test_mode)
                   (print_results (batch:=batch) i l)) as Hprint.
  { intros i l ->. revert i. induction l as [|m ms IH]; intros i;
      cbn [print_results]; [apply appends_ret|].
    do 3 (apply appends_bind; [appends_steps|intros _]).
    apply IH. }
  unfold log_evaluation_epoch_metrics.
  apply appends_bind.
  { destruct eval_results; try apply appends_ret;
      (apply appends_bind; [apply appends_lift|intros n]);
      case_bool_decide; auto using appends_ret. }
  intros reporting.
  apply appends_bind; [apply appends_gets|intros gz].
  apply appends_bind; [apply appends_gets|intros vt].
  apply appends_bind; [|intros _; apply appends_ret].
  destruct test_mode; simpl; [|apply appends_ret].
  destruct (gz && vt); [|apply appends_ret].
  apply appends_bind; [appends_steps|intros _]. by apply Hprint.
Qed.

Lemma evaluate_split dataloaders limits test_mode s :
  evaluate env dataloaders limits test_mode s =
  (evaluate_body env dataloaders limits test_mode ≫= evaluate_epilogue) s.
Proof.
  unfold evaluate, evaluate_body, mbind, M_bind, gets.
  destruct (evaluate_batches env dataloaders limits test_mode s)
    as [[[]|e] s1]; [|done].
  destruct (run_eval_epoch_end _ _ _ _ _ s1) as [[results|e] s2]; [|done].
  by destruct (update_callback_metrics _ _ _ s2) as [[[]|e] s3].
Qed.

Lemma run_selected_split dataloaders limits test_mode s :
  run_selected env dataloaders limits test_mode s =
  (run_selected_body env dataloaders limits test_mode ≫=
   run_selected_tail env test_mode) s.
Proof.
  unfold run_selected, run_selected_body, mbind, M_bind.
  destruct (evaluate env dataloaders (Ints limits) test_mode s)
    as [[results|e] s1]; [|done].
  by destruct (log_evaluation_epoch_metrics _ _ _ s1) as [[reporting|e] s2].
Qed.

Lemma appends_evaluate_body dataloaders limits test_mode :
  appends (fun c => is_loop_call test_mode c || is_reduction_call c)
    (evaluate_body env dataloaders limits test_mode).
Proof.
  unfold evaluate_body.
  apply appends_bind; [|intros _].
  { eapply appends_mono; [|apply appends_evaluate_batches].
    by intros c ->. }
  apply appends_bind; [apply appends_gets|intros outs].
  apply appends_bind; [|intros results].
  { eapply appends_mono; [|apply appends_run_eval_epoch_end].
    intros c ->. apply orb_true_r. }
  apply appends_bind; [|intros _; apply appends_ret].
  eapply appends_mono; [|apply appends_update_callback_metrics]. done.
Qed.

Lemma evaluate_epilogue_run (eval_results : list value) s :
  evaluate_epilogue eval_results s =
  (Ok eval_results,
   set_calls
     (calls s ++ [predictions_to_disk; model_train; set_grad_enabled true;
                  on_evaluation_epoch_end])
     s).
Proof. unfold evaluate_epilogue. destruct s. run_monad. reflexivity. Qed.

(** X4. [_evaluate] puts the model back into training mode and enables the
    gradients exactly when it returns: the four closing calls then end what
    it recorded and occur nowhere before; when the batch loop, the reduction
    or the sync raises, none of them is made. *)
Theorem evaluate_restores_training_iff_it_returns dataloaders limits
    test_mode s :
  ∃ new,
    calls (evaluate env dataloaders limits test_mode s).2 = calls s ++ new ∧
    match (evaluate env dataloaders limits test_mode s).1 with
    | Ok _ =>
        ∃ before,
          new = before ++ [predictions_to_disk; model_train;
                           set_grad_enabled true; on_evaluation_epoch_end] ∧
          Forall (fun c => is_epilogue_call c = false) before
    | Raise _ => Forall (fun c => is_epilogue_call c = false) new
    end.
Proof.
  rewrite evaluate_split, bind_run.
  destruct (appends_evaluate_body dataloaders limits test_mode s)
    as (new & Hc & Hnew & _).
  assert (Forall (fun c : call batch => is_epilogue_call c = false) new)
    as Hnone.
  { eapply Forall_impl; [exact Hnew|]. by intros []. }
  destruct (evaluate_body env dataloaders limits test_mode s)
    as [[results|e] s1]; simpl in Hc.
  - rewrite evaluate_epilogue_run. simpl.
    eexists. rewrite Hc, <- app_assoc. split; [done|]. eauto.
  - simpl. eauto.
Qed.

Lemma appends_evaluate dataloaders limits test_mode :
  appends (fun c => is_loop_call test_mode c || is_reduction_call c ||
                    is_epilogue_call c)
    (evaluate env dataloaders limits test_mode).
Proof.
  intros s. rewrite evaluate_split. revert s.
  apply appends_bind; [|intros results].
  - eapply appends_mono; [|apply appends_evaluate_body].
    by intros c ->.
  - unfold evaluate_epilogue.
    do 4 (apply appends_bind;
          [apply appends_record; simpl; by rewrite ?orb_true_r|intros _]).
    apply appends_ret.
Qed.

Lemma appends_run_selected_body dataloaders limits test_mode :
  appends (fun c => is_loop_call test_mode c || is_reduction_call c ||
                    is_epilogue_call c || is_emission_call test_mode c)
    (run_selected_body env dataloaders limits test_mode).
Proof.
  unfold run_selected_body.
  apply appends_bind; [|intros results].
  { eapply appends_mono; [|apply appends_evaluate]. by intros c ->. }
  apply appends_bind; [|intros reporting; apply appends_ret].
  eapply appends_mono; [|apply appends_log_evaluation_epoch_metrics].
  intros c ->. apply orb_true_r.
Qed.

Lemma run_selected_tail_run test_mode result s :
  run_selected_tail env test_mode result s =
  (Ok result,
   (if reload_dataloaders_every_epoch s
    then if test_mode
         then fun s' =>
                set_calls (calls s' ++ [on_test_end])
                  (set_test_dataloaders (reset_test_dataloader env s') s')
         else fun s' =>
                set_calls (calls s' ++ [on_validation_end])
                  (set_val_dataloaders (reset_val_dataloader env s') s')
    else set_calls
           (calls s ++ [on_post_performance_check;
                        if test_mode then on_test_end else on_validation_end]))
     (if reload_dataloaders_every_epoch s
      then set_calls
             (calls s ++ [on_post_performance_check;
                          if test_mode then reset_test_dataloader_call
                          else reset_val_dataloader_call]) s
      else s)).
Proof.
  unfold run_selected_tail, do_reset_test_dataloader, do_reset_val_dataloader.
  destruct s as [cm td vd nt nv [] gz vt tg mb os cs], test_mode;
    run_monad; reflexivity.
Qed.

Lemma calls_run_selected_tail test_mode result s :
  (run_selected_tail env test_mode result s).1 = Ok result ∧
  calls (run_selected_tail env test_mode result s).2 =
    calls s ++ tail_calls test_mode s.
Proof.
  rewrite run_selected_tail_run. unfold tail_calls.
  destruct s as [cm td vd nt nv [] gz vt tg mb os cs], test_mode; simpl;
    by rewrite <- ?app_assoc.
Qed.

(** X14. A run that is not skipped calls [on_post_performance_check], reloads
    the dataloaders when [reload_dataloaders_every_epoch] is set and calls
    the end hook of its mode exactly when it returns: these calls then end
    what it recorded and occur nowhere before, after the start hook; when
    [_evaluate] or the emission raises, none of them is made. *)
Theorem run_closes_iff_it_returns test_mode s dataloaders limits s0 :
  select_dataloaders env test_mode s = (Ok (Some dataloaders, limits), s0) →
  sum limits ≠ 0 →
  ∃ new,
    calls (run_evaluation env test_mode s).2 =
      calls s0 ++
      (if test_mode then on_test_start else on_validation_start) :: new ∧
    match (run_evaluation env test_mode s).1 with
    | Ok _ =>
        ∃ before,
          new = before ++ tail_calls test_mode s0 ∧
          Forall (fun c => is_tail_call test_mode c = false) before
    | Raise _ => Forall (fun c => is_tail_call test_mode c = false) new
    end.
Proof.
  intros Hsel Hsum.
  rewrite (run_evaluation_selected _ _ _ _ _ Hsel Hsum).
  rewrite run_selected_split, bind_run.
  set (s1 := set_calls _ s0).
  destruct (appends_run_selected_body dataloaders limits test_mode s1)
    as (new & Hc & Hnew & Hk).
  assert (Forall (fun c : call batch => is_tail_call test_mode c = false) new)
    as Hnone.
  { eapply Forall_impl; [exact Hnew|]. by intros []. }
  destruct (run_selected_body env dataloaders limits test_mode s1)
    as [[result|e] s2]; simpl in Hc, Hk.
  - destruct (calls_run_selected_tail test_mode result s2) as [Hr Hcalls].
    destruct (run_selected_tail env test_mode result s2) as [r s3].
    simpl in Hr, Hcalls |- *. subst r.
    exists (new ++ tail_calls test_mode s0).
    rewrite Hcalls, Hc, <- !app_assoc. simpl.
    assert (tail_calls test_mode s2 = tail_calls test_mode s0) as ->.
    { unfold tail_calls.
      replace (reload_dataloaders_every_epoch s2)
        with (reload_dataloaders_every_epoch s0); [done|].
      unfold config in Hk. destruct s0, s2. simpl in *. congruence. }
    split; [done|]. eauto.
  - simpl. exists new. rewrite Hc, <- app_assoc. done.
Qed.

Lemma appends_select_dataloaders test_mode :
  appends (is_selection_call test_mode) (select_dataloaders env test_mode).
Proof.
  unfold select_dataloaders, do_reset_test_dataloader, do_reset_val_dataloader.
  destruct test_mode.
  - appends_steps.
  - apply appends_bind; [appends_steps|intros _].
    apply appends_bind; [appends_steps|intros [d|]]; appends_steps.
Qed.

Lemma appends_run_selected_tail test_mode result :
  appends (is_tail_call test_mode) (run_selected_tail env test_mode result).
Proof.
  unfold run_selected_tail, do_reset_test_dataloader, do_reset_val_dataloader.
  apply appends_bind; [appends_steps|intros _].
  apply appends_bind; [appends_steps|intros reload].
  destruct test_mode, reload; appends_steps.
Qed.

Lemma appends_run_evaluation test_mode :
  appends (is_call_of_mode test_mode) (run_evaluation env test_mode).
Proof.
  unfold run_evaluation.
  apply appends_bind; [|intros [[dataloaders|] limits]].
  - eapply appends_mono; [|apply appends_select_dataloaders].
    intros []; simpl; by_bools.
  - apply appends_bind; [apply appends_record; by destruct test_mode|intros _].
    case_bool_decide; [apply appends_ret|].
    intros s. rewrite run_selected_split. revert s.
    apply appends_bind; [|intros result].
    + eapply appends_mono; [|apply appends_run_selected_body].
      intros []; simpl; by_bools.
    + eapply appends_mono; [|apply appends_run_selected_tail].
      intros []; simpl; by_bools.
  - apply appends_ret.
Qed.

(** X15. A run makes only calls of its own mode, whether it returns, raises or
    is skipped: a validation run never calls [on_test_start],
    [on_test_end] or [reset_test_dataloader] and prints nothing, a test run
    never calls the validation counterparts, and every step is run with the
    mode of the run.  The settings [reload_dataloaders_every_epoch],
    [is_global_zero] and [verbose_test] are left as they were. *)
Theorem run_makes_only_calls_of_its_mode test_mode s :
  ∃ new,
    calls (run_evaluation env test_mode s).2 = calls s ++ new ∧
    Forall (fun c =>
              match c with
              | on_test_start | on_test_end | reset_test_dataloader_call
              | print _ | pprint _ => test_mode = true
              | on_validation_start | on_validation_end
              | reset_val_dataloader_call => test_mode = false
              | evaluation_step_call mode _ _ _ => mode = test_mode
              | _ => True
              end) new ∧
    config (run_evaluation env test_mode s).2 = config s.
Proof.
  destruct (appends_run_evaluation test_mode s) as (new & Hc & Hnew & Hk).
  exists new. split; [done|]. split; [|done].
  eapply Forall_impl; [exact Hnew|].
  intros []; simpl; try done; try (by destruct test_mode).
  intros H. by apply eqb_prop.
Qed.

(** ** What a run returns does not depend on the store *)

Lemma oblivious_ret {A} (a : A) : oblivious (batch:=batch) (mret a).
Proof. by intros s s'. Qed.

Lemma oblivious_lift {A} (r : res A) : oblivious (batch:=batch) (lift r).
Proof. by intros s s'. Qed.

Lemma oblivious_modify (f : Trainer batch -> Trainer batch) :
  oblivious (modify f).
Proof. by intros s s'. Qed.

Lemma oblivious_record (c : call batch) : oblivious (record c).
Proof. by intros s s'. Qed.

Lemma oblivious_bind {A B} (m : M batch A) (f : A -> M batch B) :
  oblivious m → (∀ a, oblivious (f a)) → oblivious (m ≫= f).
Proof.
  intros Hm Hf s s'. rewrite !bind_run. specialize (Hm s s').
  destruct (m s) as [[a|e] s1], (m s') as [[a'|e'] s1']; simplify_eq/=;
    [apply Hf|done].
Qed.

(** A value read from the trainer may steer what is recorded, as long as
    it does not steer what is returned. *)
Lemma oblivious_gets_bind {A B} (g : Trainer batch -> A)
    (f : A -> M batch B) :
  (∀ a a' s s', (f a s).1 = (f a' s').1) → oblivious (gets g ≫= f).
Proof. intros Hf s s'. rewrite !bind_run. apply Hf. Qed.

Lemma oblivious_fmap {A B} (g : A -> B) (m : M batch A) :
  oblivious m → oblivious (g <$> m).
Proof.
  intros Hm s s'. specialize (Hm s s'). unfold fmap, M_fmap.
  destruct (m s) as [[a|e] s1], (m s') as [[a'|e'] s1']; by simplify_eq/=.
Qed.

Lemma oblivious_for_each {A} (l : list A) (body : A -> M batch unit) :
  (∀ x, oblivious (body x)) → oblivious (for_each l body).
Proof.
  intros Hbody. induction l as [|x l IH]; simpl.
  - apply oblivious_ret.
  - apply oblivious_bind; [done|]. by intros _.
Qed.

Ltac oblivious_steps :=
  repeat first
    [ apply oblivious_ret | apply oblivious_lift | apply oblivious_record
    | apply oblivious_modify
    | apply oblivious_bind; [|intros ?]
    | apply oblivious_fmap ].

Lemma oblivious_run_eval_epoch_end test_mode outputs dataloaders flag :
  oblivious (run_eval_epoch_end env test_mode outputs dataloaders flag).
Proof.
  unfold run_eval_epoch_end, call_user_hook.
  apply oblivious_bind; [apply oblivious_lift|intros raw].
  apply oblivious_bind.
  - destruct test_mode;
      [destruct (test_end (get_model env)), (test_epoch_end (get_model env))
      |destruct (validation_end (get_model env)),
         (validation_epoch_end (get_model env))];
      destruct flag; oblivious_steps.
  - intros [eval_results user_reduced].
    destruct (flag && negb user_reduced); oblivious_steps.
Qed.

Lemma oblivious_update_callback_metrics eval_results flag :
  oblivious (update_callback_metrics env eval_results flag).
Proof.
  unfold update_callback_metrics.
  assert (∀ v, oblivious (batch:=batch) (assign_callback_metrics v)) as Ha.
  { intros v. unfold assign_callback_metrics. oblivious_steps. }
  assert (∀ v, oblivious (batch:=batch) (update_from_legacy env v)) as Hu.
  { intros v. unfold update_from_legacy, callback_metrics_update.
    apply oblivious_bind; [destruct v; oblivious_steps|intros flat].
    oblivious_steps. }
  destruct flag, eval_results; auto using oblivious_for_each.
Qed.

Lemma oblivious_log_evaluation_epoch_metrics eval_results test_mode :
  oblivious (log_evaluation_epoch_metrics env eval_results test_mode).
Proof.
  assert (∀ results acc,
            oblivious (log_results env test_mode results acc)) as Hloop.
  { intros results. induction results as [|r rs IH]; intros acc;
      cbn [log_results]; [apply oblivious_ret|].
    unfold callback_metrics_update.
    apply oblivious_bind; [apply oblivious_lift|intros v].
    do 3 (apply oblivious_bind; [oblivious_steps|intros _]).
    apply IH. }
  assert (∀ i l s, (print_results (batch:=batch) i l s).1 = Ok tt) as Hprint.
  { intros i l s. by rewrite print_results_run. }
  unfold log_evaluation_epoch_metrics.
  apply oblivious_bind.
  { destruct eval_results; try apply oblivious_ret;
      (apply oblivious_bind; [apply oblivious_lift|intros n]);
      case_bool_decide; auto using oblivious_ret. }
  intros reporting s s'. rewrite !bind_run. unfold gets. cbv iota beta.
  rewrite !bind_run.
  destruct (test_mode && is_global_zero s && verbose_test s),
    (test_mode && is_global_zero s' && verbose_test s');
    rewrite ?bind_run, ?record_run, ?Hprint;
    repeat match goal with
           | |- context [print_results ?i ?l ?s0] =>
               let H := fresh in
               pose proof (Hprint i l s0) as H;
               destruct (print_results i l s0) as [[[]|?] ?];
               simpl in H; try discriminate H; clear H
           end; reflexivity.
Qed.

Lemma oblivious_evaluate dataloaders limits test_mode :
  oblivious (evaluate env dataloaders limits test_mode).
Proof.
  intros s s'. unfold evaluate.
  rewrite !(bind_run (evaluate_batches _ _ _ _)), !evaluate_batches_any.
  case_bool_decide; [|done].
  rewrite !(bind_run (gets outputs)). unfold gets. cbv iota beta.
  cbn [outputs set_loop].
  generalize (loop_outputs env test_mode
                (per_loader limits (length dataloaders))
                (take (length (per_loader limits (length dataloaders)))
                   dataloaders)).
  intros outs.
  apply oblivious_bind; [apply oblivious_run_eval_epoch_end|intros results].
  apply oblivious_bind; [apply oblivious_update_callback_metrics|intros _].
  oblivious_steps.
Qed.

Lemma oblivious_run_selected dataloaders limits test_mode :
  oblivious (run_selected env dataloaders limits test_mode).
Proof.
  unfold run_selected, do_reset_test_dataloader, do_reset_val_dataloader.
  apply oblivious_bind; [apply oblivious_evaluate|intros results].
  apply oblivious_bind;
    [apply oblivious_log_evaluation_epoch_metrics|intros reporting].
  apply oblivious_bind; [apply oblivious_record|intros _].
  apply oblivious_gets_bind. intros reload reload' s s'.
  assert (∀ r : bool,
            oblivious (batch:=batch)
              ((if test_mode
                then if r
                     then record reset_test_dataloader_call;;
                          modify (fun s =>
                            set_test_dataloaders (reset_test_dataloader env s) s)
                     else mret tt
                else if r
                     then record reset_val_dataloader_call;;
                          modify (fun s =>
                            set_val_dataloaders (reset_val_dataloader env s) s)
                     else mret tt);;
               record (if test_mode then on_test_end else on_validation_end);;
               mret (reporting, results))) as Hob.
  { intros r. destruct test_mode, r; oblivious_steps. }
  etrans; [apply (Hob reload s s')|].
  clear Hob. destruct test_mode, reload, reload', s'; reflexivity.
Qed.

(** X16. What a run returns or raises depends on the trainer through the
    selected dataloaders and limits only: two runs that select the same
    ones return the same reporting list and the same epoch results, whatever
    the callback-metric store holds and whatever ran before. *)
Theorem runs_on_the_same_data_return_the_same test_mode s s' selected s0 s0' :
  select_dataloaders env test_mode s = (Ok selected, s0) →
  select_dataloaders env test_mode s' = (Ok selected, s0') →
  (run_evaluation env test_mode s).1 = (run_evaluation env test_mode s').1.
Proof.
  intros Hsel Hsel'. unfold run_evaluation.
  rewrite !bind_run, Hsel, Hsel'.
  destruct selected as [[dataloaders|] limits]; [|done].
  rewrite !bind_run, !record_run.
  case_bool_decide; [done|]. apply oblivious_run_selected.
Qed.

(** ** What an epoch-end hook receives with structured outputs *)


(** ** A legacy run over one dataloader, from the batches to the store *)

(** X5. With one dataloader, legacy step outputs that are all scalars and no
    epoch-end hook, [_evaluate] returns the list of the kept step outputs as
    the epoch results and binds the last of them to ["val_loss"] in the
    store, whose other keys keep their values. *)
Theorem legacy_scalars_reach_the_store dl (m : Z) test_mode (ts : list tensor)
    s :
  loop_outputs env test_mode [m] [dl] = [VTensor <$> ts] →
  is_using_eval_results env [VTensor <$> ts] = false →
  legacy_hook (get_model env) test_mode = None →
  current_hook (get_model env) test_mode = None →
  (evaluate env [dl] (Ints [m]) test_mode s).1 = Ok (VTensor <$> ts) ∧
  callback_metrics (evaluate env [dl] (Ints [m]) test_mode s).2 =
    match last ts with
    | Some t => <["val_loss" := t]> (callback_metrics s)
    | None => callback_metrics s
    end.
Proof.
  intros Hout Husing Hl Hc.
  cut (∃ s', evaluate env [dl] (Ints [m]) test_mode s =
               (Ok (VTensor <$> ts), s') ∧
             callback_metrics s' =
               match last ts with
               | Some t => <["val_loss" := t]> (callback_metrics s)
               | None => callback_metrics s
               end).
  { intros (s' & -> & Hs'). by split. }
  rewrite evaluate_split, bind_run. unfold evaluate_body.
  rewrite bind_run, evaluate_batches_any. simpl per_loader. simpl length.
  rewrite bool_decide_true by done. rewrite take_ge by (simpl; lia).
  rewrite Hout. rewrite bind_run. unfold gets at 1. cbn [outputs set_loop].
  rewrite Husing.
  assert (∀ s0, run_eval_epoch_end env test_mode [VTensor <$> ts] [dl] false s0
                = (Ok (VTensor <$> ts), s0)) as Hred.
  { intros s0. unfold run_eval_epoch_end, legacy_hook, current_hook in *.
    destruct test_mode; rewrite Hl, Hc; by destruct s0. }
  rewrite bind_run, Hred, bind_run.
  cbn [update_callback_metrics]. rewrite for_each_update_scalars.
  change ((mret (VTensor <$> ts) : M batch _) ?s0)
    with (Ok (VTensor <$> ts), s0).
  cbv iota beta. rewrite evaluate_epilogue_run.
  eexists. split; [reflexivity|]. by destruct s.
Qed.

End Properties.

(** * Concrete runs *)

Lemma batch_limits_respected_witness :
  ∃ s',
    evaluate_batches (sample_env no_hooks scalar_step)
      [five_batches; five_batches] (Ints [3; 0]) false
      (sample_trainer None []) = (Ok tt, s') ∧
    length (outputs s') = 2%nat ∧
    ∀ i m dl_outputs,
      [3; 0] !! i = Some m →
      outputs s' !! i = Some dl_outputs →
      Z.of_nat (length dl_outputs) ≤ m ∧ (m = 0 → dl_outputs = []).
Proof.
  apply (batch_limits_respected (sample_env no_hooks scalar_step)
           [five_batches; five_batches] [3; 0] false (sample_trainer None [])).
  - reflexivity.
  - repeat constructor; lia.
Defined.

Lemma null_batches_are_skipped_witness :
  ∃ s' (positions : list (list (nat * Qc))),
    evaluate_batches (sample_env no_hooks scalar_step)
      [five_batches] (Ints [4]) false (sample_trainer None []) = (Ok tt, s') ∧
    calls s' =
      [] ++ [evaluation_loop_setup; on_evaluation_epoch_start] ++
      concat (imap (fun i ps =>
                      flat_map (batch_calls (sample_env no_hooks scalar_step)
                                  false i) ps)
                positions) ∧
    outputs s' =
      imap (fun i ps => omap (kept_output (sample_env no_hooks scalar_step)
                                false i) ps) positions ∧
    length positions = 1%nat ∧
    ∀ i dl m ps,
      [five_batches] !! i = Some dl →
      [4] !! i = Some m →
      positions !! i = Some ps →
      ∀ j b, (j, b) ∈ ps ↔ dl !! j = Some (Some b) ∧ Z.of_nat j < m.
Proof.
  apply (null_batches_are_skipped (sample_env no_hooks scalar_step)
           [five_batches] [4] false (sample_trainer None [])).
  reflexivity.
Defined.

(** The scenario of the spec: the monitored values 0.5, 0.3 and 0.7 over the
    three batches of one dataloader reduce to the single scalar 0.5, through
    the auto-reduce and through the gather preprocessing. *)
Lemma reserved_slots_are_means_witness :
  ∃ r r',
    auto_reduce_result_objs (sample_env no_hooks structured_step)
      [[VResult (monitored (q 1 2)); VResult (monitored (q 3 10));
        VResult (monitored (q 7 10))]] = Ok [VResult r] ∧
    EvalResult.checkpoint_on r = Some (Scalar (q 1 2)) ∧
    gather_epoch_end_eval_results (sample_env no_hooks structured_step)
      [[VResult (monitored (q 1 2)); VResult (monitored (q 3 10));
        VResult (monitored (q 7 10))]] = Ok (VResult r') ∧
    EvalResult.checkpoint_on r' = Some (Scalar (q 1 2)).
Proof.
  destruct (reserved_slots_are_means (sample_env no_hooks structured_step)
              [[monitored (q 1 2); monitored (q 3 10); monitored (q 7 10)]])
    as [(rs & Ha & Hra) (rs' & Hg & Hrg)].
  { repeat constructor; discriminate. }
  inversion Hra as [|? r ? ? [Hc _] Hnil]; subst. inversion Hnil; subst.
  inversion Hrg as [|? r' ? ? [Hc' _] Hnil']; subst. inversion Hnil'; subst.
  exists r, r'.
  assert (slot_mean EvalResult.checkpoint_on
            [monitored (q 1 2); monitored (q 3 10); monitored (q 7 10)] =
          Some (Scalar (q 1 2))) as Hmean.
  { unfold slot_mean. simpl. do 2 f_equal. apply Qc_is_canon. reflexivity. }
  rewrite Hmean in Hc, Hc'.
  split; [exact Ha|]. split; [exact Hc|]. split; [exact Hg|exact Hc'].
Defined.

Lemma empty_output_list_raises_witness :
  gather_epoch_end_eval_results (sample_env no_hooks structured_step)
    [[VResult (monitored (q 1 2))]; []] = Raise IndexError ∧
  auto_reduce_result_objs (sample_env no_hooks structured_step)
    [[VResult (monitored (q 1 2))]; []] = Raise IndexError ∧
  ∀ test_mode dataloaders s,
    (run_eval_epoch_end (sample_env no_hooks structured_step) test_mode
       [[VResult (monitored (q 1 2))]; []] dataloaders true s).1 =
    Raise IndexError.
Proof.
  apply (empty_output_list_raises (sample_env no_hooks structured_step)
           [[VResult (monitored (q 1 2))]; []]).
  - repeat constructor.
  - apply elem_of_cons. right. apply elem_of_cons. by left.
Defined.

(** With both hooks overridden, the deprecated one is used and the warning
    is recorded. *)
Lemma reduction_priority_witness :
  run_eval_epoch_end (sample_env both_hooks scalar_step) true
    [[VTensor (Scalar (q 5 1))]] [three_batches] false
    (sample_trainer None []) =
  (Ok [VTensor (Scalar (q 1 1))],
   set_calls
     [user_hook "test_end" (VList [VTensor (Scalar (q 5 1))]);
      rank_zero_warn (deprecation "test_end" "test_epoch_end")]
     (sample_trainer None [])).
Proof.
  destruct (reduction_priority (sample_env both_hooks scalar_step) true
              [[VTensor (Scalar (q 5 1))]] [three_batches] false
              (sample_trainer None []) eq_refl) as [H _].
  exact (H _ eq_refl).
Defined.

Lemma nothing_to_evaluate_witness :
  ∃ s',
    run_evaluation (sample_env no_hooks scalar_step) false
      (sample_trainer (Some [five_batches; five_batches]) [0; 0]) =
      (Ok ([], []), s') ∧
    callback_metrics s' = ∅ ∧
    outputs s' = [] ∧
    calls s' = [on_pre_performance_check; on_validation_start].
Proof.
  apply (nothing_to_evaluate (sample_env no_hooks scalar_step) false
           (sample_trainer (Some [five_batches; five_batches]) [0; 0])
           (Some [five_batches; five_batches]) [0; 0]
           (set_calls [on_pre_performance_check]
              (sample_trainer (Some [five_batches; five_batches]) [0; 0]))).
  - reflexivity.
  - right. reflexivity.
Defined.

Lemma epoch_results_stay_wrapped_witness :
  ∃ r, (returned (run_evaluation structured_env false one_loader).1).2 =
       [VResult r].
Proof.
  destruct (epoch_results_stay_wrapped structured_env false one_loader
              [three_batches] [3]
              (set_calls [on_pre_performance_check] one_loader)
              (returned (run_evaluation structured_env false one_loader).1).1
              (returned (run_evaluation structured_env false one_loader).1).2
              (run_evaluation structured_env false one_loader).2)
    as (s1 & s2 & Hb & Hr & Hone).
  - reflexivity.
  - discriminate.
  - reflexivity.
  - vm_compute. reflexivity.
  - destruct Hone as (r & Hres & _).
    + reflexivity.
    + vm_compute in Hb. injection Hb as <-. reflexivity.
    + reflexivity.
    + reflexivity.
    + exists r. exact Hres.
Defined.

(** One dataloader and a structured result without metrics: the reporting
    list is not longer than the list of epoch results. *)
Lemma reporting_list_of_epoch_results_witness :
  (length (returned (run_evaluation bare_env false one_loader).1).1 ≤
   length (returned (run_evaluation bare_env false one_loader).1).2)%nat.
Proof.
  destruct (reporting_list_of_epoch_results bare_env false one_loader
              (returned (run_evaluation bare_env false one_loader).1).1
              (returned (run_evaluation bare_env false one_loader).1).2
              (run_evaluation bare_env false one_loader).2)
    as [(vs & _ & _ & Hle) _].
  - vm_compute. reflexivity.
  - exact Hle.
Defined.

(** C1, where the code departs from it.  The structured branch of the sync
    binds the store anew: a store that holds [a] holds only [b] after the
    sync of a structured result that publishes [b]; and of two validation
    runs in a row, the first publishing [acc_a] and the second [acc_b], only
    [acc_b] is left in the store. *)
Theorem structured_sync_replaces_the_store :
  (∃ s',
     update_callback_metrics structured_env
       (VList [VResult (EvalResult.mk None None ∅ ∅
                          {[ "b" := Scalar (q 2 1) ]})])
       true
       (set_callback_metrics {[ "a" := Scalar (q 1 1) ]} one_loader) =
       (Ok tt, s') ∧
     callback_metrics s' !! "a" = None ∧
     callback_metrics s' !! "b" = Some (Scalar (q 2 1))) ∧
  (∃ first second s1 s2,
     run_evaluation named_env false
       (sample_trainer (Some [[Some (q 0 1)]]) [1]) = (Ok first, s1) ∧
     callback_metrics s1 !! "acc_a" = Some (Scalar (q 0 1)) ∧
     run_evaluation named_env false
       (set_val_dataloaders (Some [[Some (q 1 1)]], [1]) s1) =
       (Ok second, s2) ∧
     callback_metrics s2 !! "acc_a" = None ∧
     callback_metrics s2 !! "acc_b" = Some (Scalar (q 1 1))).
Proof.
  split.
  - eexists. split; [reflexivity|]. split; reflexivity.
  - do 4 eexists. split; [vm_compute; reflexivity|].
    split; [vm_compute; reflexivity|].
    split; [vm_compute; reflexivity|].
    split; vm_compute; reflexivity.
Qed.

(** C2, as it is worded, fails: with one dataloader the second component is
    the one-element list that wraps the reduced result. *)
Lemma single_source_result_is_wrapped :
  ∃ reporting r s',
    run_evaluation structured_env false one_loader =
      (Ok (reporting, [VResult r]), s') ∧
    auto_reduce_result_objs structured_env (outputs s') = Ok [VResult r] ∧
    length [VResult r] = 1%nat.
Proof.
  do 3 eexists. split; [vm_compute; reflexivity|].
  split; [vm_compute; reflexivity|reflexivity].
Qed.

(** C4, as it is worded, fails: in testing the emission merges the callback
    view of a legacy result into the store, and the sync of a test run binds
    the store to the callback metrics of a structured result. *)
Lemma test_mode_changes_the_store :
  (∃ reporting s',
     log_evaluation_epoch_metrics mapping_env
       (VList [VDict [("test_loss", VTensor (Scalar (q 1 2)))]]) true
       one_loader = (Ok reporting, s') ∧
     callback_metrics one_loader !! "test_loss" = None ∧
     callback_metrics s' !! "test_loss" = Some (Scalar (q 1 2))) ∧
  (∃ result s',
     run_evaluation structured_env true one_loader = (Ok result, s') ∧
     callback_metrics one_loader !! "test_acc" = None ∧
     callback_metrics s' !! "test_acc" = Some (Scalar (q 7 10))).
Proof.
  split.
  - do 2 eexists. split; [vm_compute; reflexivity|].
    split; vm_compute; reflexivity.
  - do 2 eexists. split; [vm_compute; reflexivity|].
    split; vm_compute; reflexivity.
Qed.

(** C9, as it is worded, fails: with one dataloader, a structured result
    without metrics gives no reporting mapping, and two legacy step outputs
    without a hook give two. *)
Lemma reporting_list_is_not_one_per_source :
  (∃ eval_results s',
     run_evaluation bare_env false one_loader = (Ok ([], eval_results), s') ∧
     length eval_results = 1%nat) ∧
  (∃ reporting eval_results s',
     run_evaluation mapping_env false
       (sample_trainer (Some [three_batches]) [2]) =
       (Ok (reporting, eval_results), s') ∧
     length reporting = 2%nat).
Proof.
  split.
  - do 2 eexists. split; [vm_compute; reflexivity|reflexivity].
  - do 3 eexists. split; [vm_compute; reflexivity|reflexivity].
Qed.

(** ** Concrete runs for the further properties *)

Lemma structured_sync_raises_on_other_results_witness :
  update_callback_metrics structured_env
    (VList ((VResult <$> [publishes_b]) ++ [VTensor (Scalar (q 1 1))]))
    true store_a =
  (Raise AttributeError,
   set_callback_metrics
     (default (callback_metrics store_a)
        (EvalResult.callback_metrics <$> last [publishes_b]))
     store_a).
Proof.
  apply (structured_sync_raises_on_other_results structured_env
           [publishes_b] (VTensor (Scalar (q 1 1))) [] store_a).
  reflexivity.
Defined.

Lemma update_callback_metrics_legacy_keeps_keys_witness :
  dom (callback_metrics store_a) ⊆
  dom (callback_metrics
         (update_callback_metrics mapping_env
            (VList [VDict [("val_loss", VTensor (Scalar (q 1 2)))]])
            false store_a).2).
Proof.
  apply (update_callback_metrics_legacy_keeps_keys mapping_env
           (VList [VDict [("val_loss", VTensor (Scalar (q 1 2)))]])
           store_a).
  vm_compute. reflexivity.
Defined.

Lemma emission_keeps_and_publishes_keys_witness :
  dom (callback_metrics store_a) ⊆
    dom (callback_metrics
           (log_evaluation_epoch_metrics structured_env
              (VList [VResult publishes_b]) false store_a).2) ∧
  (false = false →
   ∀ r, VResult r ∈ [VResult publishes_b] →
        dom (EvalResult.callback_metrics r) ⊆
        dom (callback_metrics
               (log_evaluation_epoch_metrics structured_env
                  (VList [VResult publishes_b]) false store_a).2)).
Proof.
  apply (emission_keeps_and_publishes_keys structured_env false
           [VResult publishes_b] store_a
           (ok_or []
              (log_evaluation_epoch_metrics structured_env
                 (VList [VResult publishes_b]) false store_a).1)).
  vm_compute. reflexivity.
Defined.

Lemma emission_forwards_every_result_witness :
  ∃ vs report,
    Forall2 (fun result v => result_views structured_env true result = Ok v)
      [VResult publishes_b; VResult (monitored (q 1 2))] vs ∧
    calls (log_evaluation_epoch_metrics structured_env
             (VList [VResult publishes_b; VResult (monitored (q 1 2))])
             true store_a).2 =
      calls store_a ++
      flat_map (fun v => [add_progress_bar_metrics (prog_bar_view v);
                          log_metrics (log_view v)]) vs ++
      report ∧
    Forall (fun c => match c with print _ | pprint _ => True | _ => False end)
      report.
Proof.
  apply (emission_forwards_every_result structured_env true
           [VResult publishes_b; VResult (monitored (q 1 2))] store_a
           (ok_or []
              (log_evaluation_epoch_metrics structured_env
                 (VList [VResult publishes_b; VResult (monitored (q 1 2))])
                 true store_a).1)).
  vm_compute. reflexivity.
Defined.


Lemma full_pass_keeps_every_output_witness :
  outputs (evaluate_batches (sample_env no_hooks scalar_step)
             [three_batches] (Ints [5]) false one_loader).2 !! 0%nat =
  Some (imap (fun j b => scalar_step false b j 0)
          [q 1 2; q 3 10; q 7 10]).
Proof.
  apply (full_pass_keeps_every_output (sample_env no_hooks scalar_step)
           [three_batches] [5] false one_loader 0 three_batches
           [q 1 2; q 3 10; q 7 10] 5).
  - reflexivity.
  - reflexivity.
  - reflexivity.
  - simpl. lia.
  - intros j b _. reflexivity.
Defined.

Lemma run_closes_iff_it_returns_witness :
  ∃ new,
    calls (run_evaluation structured_env false one_loader).2 =
      [on_pre_performance_check] ++ on_validation_start :: new ∧
    ∃ before,
      new = before ++ [on_post_performance_check; on_validation_end] ∧
      Forall (fun c => is_tail_call false c = false) before.
Proof.
  destruct (run_closes_iff_it_returns structured_env false one_loader
              [three_batches] [3]
              (set_calls [on_pre_performance_check] one_loader))
    as (new & Hc & Hr).
  - reflexivity.
  - discriminate.
  - exists new. split; [exact Hc|].
    assert ((run_evaluation structured_env false one_loader).1 =
            Ok (returned (run_evaluation structured_env false one_loader).1))
      as Hok by (vm_compute; reflexivity).
    rewrite Hok in Hr. exact Hr.
Defined.

Lemma runs_on_the_same_data_return_the_same_witness :
  (run_evaluation structured_env false one_loader).1 =
  (run_evaluation structured_env false
     (run_evaluation structured_env false one_loader).2).1.
Proof.
  apply (runs_on_the_same_data_return_the_same structured_env false
           one_loader (run_evaluation structured_env false one_loader).2
           (Some [three_batches], [3])
           (select_dataloaders structured_env false one_loader).2
           (select_dataloaders structured_env false
              (run_evaluation structured_env false one_loader).2).2).
  - reflexivity.
  - vm_compute. reflexivity.
Defined.


Lemma legacy_scalars_reach_the_store_witness :
  (evaluate (sample_env no_hooks scalar_step) [three_batches] (Ints [2])
     false store_a).1 =
    Ok (VTensor <$> [Scalar (q 1 2); Scalar (q 3 10)]) ∧
  callback_metrics
    (evaluate (sample_env no_hooks scalar_step) [three_batches] (Ints [2])
       false store_a).2 =
    match last [Scalar (q 1 2); Scalar (q 3 10)] with
    | Some t => <["val_loss" := t]> (callback_metrics store_a)
    | None => callback_metrics store_a
    end.
Proof.
  apply (legacy_scalars_reach_the_store (sample_env no_hooks scalar_step)
           three_batches 2 false [Scalar (q 1 2); Scalar (q 3 10)] store_a).
  - reflexivity.
  - reflexivity.
  - reflexivity.
  - reflexivity.
Defined.
